(** * LastWork.py: the task store and its HTTP handler

    A shallow embedding of [src/LastWork.py].  The program is Python, so
    the values that cross its boundaries (the persistence file, a request
    body) are dynamically typed: they are embedded as [pyval], the Python
    objects that [json.load] can produce.  Stateful code runs in a small
    state-and-exception monad [M] over [State]: the task dictionary of the
    single [TaskManager], the persistence file, the diagnostics printed, and
    the supply of random bytes behind [uuid.uuid4].

    The standard library is embedded by what its calls return: [json.load],
    [json.loads], [urllib.parse.parse_qs], [urlparse] and [bytes.decode] are
    given by their results on the file or the request at hand, with the
    exceptions the program meets.  Requests are served one at a time; the
    failure of the operating system to write the file is not modelled. *)

From Stdlib Require Import ZArith NArith List String Ascii Bool Lia FinFun.
From Stdlib Require Import Decimal DecimalFacts DecimalPos DecimalString.
Import ListNotations.
Local Open Scope string_scope.
Local Open Scope list_scope.
Local Open Scope Z_scope.

(** ** Python values *)

(** A Python [float]: not-a-number, an infinity, a signed zero, or the
    finite non-zero number [(-1)^neg * m * 2^e]. *)
Inductive pyfloat : Type :=
| FNan
| FInf (neg : bool)
| FZero (neg : bool)
| FFin (neg : bool) (m : positive) (e : Z).

(** The objects [json.load] and [json.loads] return.  A [str] is kept as
    the UTF-8 bytes of its text, and a lone surrogate in it (which a JSON
    escape can produce, and which UTF-8 cannot encode) as the three bytes
    [ED A0..BF 80..BF] that the "surrogatepass" handler gives it; a [dict]
    is kept as its items in insertion order (its keys are strings, since it
    was decoded from a JSON object). *)
#[warnings="-register-all"]
Inductive pyval : Type :=
| PNone
| PBool (b : bool)
| PInt (z : Z)
| PFloat (f : pyfloat)
| PStr (s : string)
| PList (l : list pyval)
| PDict (d : list (string * pyval)).

(** The exceptions the program can meet. *)
Inductive exn : Type :=
| TypeError
| KeyError
| AttributeError
| ValueError
| UnicodeDecodeError
| UnicodeEncodeError
| RecursionError
| JSONDecodeError.

Inductive result (A : Type) : Type :=
| Ok (a : A)
| Raise (e : exn).
Arguments Ok {A} a.
Arguments Raise {A} e.

(** [bool(v)]: the truth value of an object. *)
Definition truthy (v : pyval) : bool :=
  match v with
  | PNone => false
  | PBool b => b
  | PInt z => negb (z =? 0)
  | PFloat (FZero _) => false
  | PFloat _ => true
  | PStr s => negb (s =? "")%string
  | PList l => match l with [] => false | _ => true end
  | PDict d => match d with [] => false | _ => true end
  end.

(** [s.encode("utf-8")] succeeds: no lone surrogate occurs in [s]. *)
Fixpoint encodable (s : string) : bool :=
  match s with
  | EmptyString => true
  | String a s' =>
      match s' with
      | String b _ =>
          negb ((nat_of_ascii a =? 237)%nat && (160 <=? nat_of_ascii b)%nat)
      | EmptyString => true
      end && encodable s'
  end.

(** [json.dump(v, f, ensure_ascii=False)] into a UTF-8 file, and
    [json.dumps(v, ensure_ascii=False).encode("utf-8")], succeed: every
    string in [v] can be encoded. *)
Fixpoint dumpable (v : pyval) : bool :=
  match v with
  | PStr s => encodable s
  | PList l => forallb dumpable l
  | PDict d => forallb (fun kv => encodable (fst kv) && dumpable (snd kv)) d
  | _ => true
  end.

(** [v == s] for a string literal [s]: only an equal [str] compares equal. *)
Definition eq_str (v : pyval) (s : string) : bool :=
  match v with
  | PStr t => (t =? s)%string
  | _ => false
  end.

(** [v in [s1, s2, ...]] for a list of string literals. *)
Definition in_strs (v : pyval) (l : list string) : bool :=
  existsb (eq_str v) l.

(** [d[k]] and [d.get(k)] on the items of a [dict] with string keys. *)
Fixpoint items_get {A : Type} (k : string) (d : list (string * A)) : option A :=
  match d with
  | [] => None
  | (k', v) :: d' => if (k' =? k)%string then Some v else items_get k d'
  end.

(** [sub in s] on strings: [sub] occurs in [s]. *)
Fixpoint is_prefix (p s : string) : bool :=
  match p, s with
  | EmptyString, _ => true
  | String a p', String b s' => Ascii.eqb a b && is_prefix p' s'
  | String _ _, EmptyString => false
  end.

Fixpoint occurs (sub s : string) : bool :=
  is_prefix sub s ||
  match s with
  | EmptyString => false
  | String _ s' => occurs sub s'
  end.

(** [k in v] for a string literal [k]: key membership in a [dict], element
    membership in a [list], substring test in a [str]; any other operand is
    "not iterable". *)
Definition contains (v : pyval) (k : string) : result bool :=
  match v with
  | PDict d => Ok (match items_get k d with Some _ => true | None => false end)
  | PList l => Ok (existsb (fun x => eq_str x k) l)
  | PStr s => Ok (occurs k s)
  | _ => Raise TypeError
  end.

(** [v[k]] for a string literal [k]: only a [dict] can be subscripted by a
    string, and a missing key is a [KeyError]. *)
Definition subscript (v : pyval) (k : string) : result pyval :=
  match v with
  | PDict d => match items_get k d with Some x => Ok x | None => Raise KeyError end
  | _ => Raise TypeError
  end.

(** [v.get(k, default)]: only a [dict] has the method. *)
Definition get_default (v : pyval) (k : string) (default : pyval) : result pyval :=
  match v with
  | PDict d => Ok (match items_get k d with Some x => x | None => default end)
  | _ => Raise AttributeError
  end.

(** [for x in v]: the elements a [for] loop visits.  A [dict] yields its
    keys and a [str] its characters (one-character strings; here one per
    byte, which no caller below can tell apart); the other objects are not
    iterable. *)
Fixpoint chars (s : string) : list pyval :=
  match s with
  | EmptyString => []
  | String a s' => PStr (String a EmptyString) :: chars s'
  end.

Definition iterate (v : pyval) : result (list pyval) :=
  match v with
  | PList l => Ok l
  | PDict d => Ok (map (fun kv => PStr (fst kv)) d)
  | PStr s => Ok (chars s)
  | _ => Raise TypeError
  end.

(** ** Dictionary keys

    A Python [dict] finds a key by hash and [==].  Numbers of different
    types that are equal are one key ([True == 1 == 1.0]), so a hashable
    object is sent to the canonical form of its equality class; [list] and
    [dict] objects are unhashable. *)
Inductive hkey : Type :=
| KNone
| KNum (z : Z)
| KFrac (neg : bool) (m : positive) (e : positive)
| KInf (neg : bool)
| KNan
| KStr (s : string).

(** Move the factors two of the mantissa into the exponent. *)
Fixpoint odd_part (m : positive) (e : Z) : positive * Z :=
  match m with
  | xO m' => odd_part m' (e + 1)
  | _ => (m, e)
  end.

Definition float_key (f : pyfloat) : hkey :=
  match f with
  | FNan => KNan
  | FInf neg => KInf neg
  | FZero _ => KNum 0
  | FFin neg m e =>
      let '(m', e') := odd_part m e in
      if 0 <=? e' then
        KNum ((if neg then -1 else 1) * (Z.pos m' * 2 ^ e'))
      else KFrac neg m' (Z.to_pos (- e'))
  end.

Definition hash_key (v : pyval) : result hkey :=
  match v with
  | PNone => Ok KNone
  | PBool b => Ok (KNum (if b then 1 else 0))
  | PInt z => Ok (KNum z)
  | PFloat f => Ok (float_key f)
  | PStr s => Ok (KStr s)
  | PList _ | PDict _ => Raise TypeError
  end.

Definition hkey_eqb (a b : hkey) : bool :=
  match a, b with
  | KNone, KNone => true
  | KNum x, KNum y => x =? y
  | KFrac n m e, KFrac n' m' e' => Bool.eqb n n' && (m =? m')%positive && (e =? e')%positive
  | KInf n, KInf n' => Bool.eqb n n'
  | KNan, KNan => true
  | KStr s, KStr t => (s =? t)%string
  | _, _ => false
  end.

(** An insertion-ordered [dict]: [dict_get] is [d.get(k)], [dict_set] is
    [d[k] = v], which keeps the position of a key that is already there
    and appends a new key at the end. *)
Fixpoint dict_get {V : Type} (k : hkey) (d : list (hkey * V)) : option V :=
  match d with
  | [] => None
  | (k', v) :: d' => if hkey_eqb k' k then Some v else dict_get k d'
  end.

Fixpoint dict_set {V : Type} (k : hkey) (v : V) (d : list (hkey * V)) : list (hkey * V) :=
  match d with
  | [] => [(k, v)]
  | (k', v') :: d' =>
      if hkey_eqb k' k then (k', v) :: d' else (k', v') :: dict_set k v d'
  end.

Definition dict_values {V : Type} (d : list (hkey * V)) : list V := map snd d.
Definition dict_keys {V : Type} (d : list (hkey * V)) : list hkey := map fst d.

(** ** The monad of the program

    A computation reads and writes a state of type [S] and either returns
    or raises; the state changes made before a [raise] stay, as in Python. *)
Definition M (S A : Type) : Type := S -> result A * S.

Definition ret {S A : Type} (a : A) : M S A := fun s => (Ok a, s).

Definition bind {S A B : Type} (m : M S A) (f : A -> M S B) : M S B :=
  fun s =>
    match m s with
    | (Ok a, s') => f a s'
    | (Raise e, s') => (Raise e, s')
    end.

Definition raise {S A : Type} (e : exn) : M S A := fun s => (Raise e, s).

(** A pure operation that may raise. *)
Definition lift_result {S A : Type} (r : result A) : M S A := fun s => (r, s).

(** [try: m  except (the exceptions caught): handler]. *)
Definition try_except {S A : Type} (m : M S A) (caught : exn -> bool)
  (handler : M S A) : M S A :=
  fun s =>
    match m s with
    | (Ok a, s') => (Ok a, s')
    | (Raise e, s') => if caught e then handler s' else (Raise e, s')
    end.

Declare Scope py_scope.
Delimit Scope py_scope with py.
Notation "x <- m ;; k" := (bind m (fun x => k))
  (at level 100, m at next level, right associativity) : py_scope.
Notation "m ;;; k" := (bind m (fun _ => k))
  (at level 100, right associativity) : py_scope.
Local Open Scope py_scope.

(** [for x in l: body x]. *)
Fixpoint for_each {S A : Type} (l : list A) (body : A -> M S unit) : M S unit :=
  match l with
  | [] => ret tt
  | x :: l' => body x ;;; for_each l' body
  end.

(** ** The world outside the process *)

(** The content of [DATA_FILE] as [open(..., encoding="utf-8")] and
    [json.load] see it: bytes that are not UTF-8; a text that is not JSON
    (the empty file and a dump cut short are such texts); a JSON text,
    given by the object it decodes to; or a JSON text on which the decoder
    raises an error of its own, [LoadError e]: [ValueError] for an integer
    of more than 4300 digits, [RecursionError] for too deep a nesting.
    [json.dump] writes a text of the third kind, and [json.load] gives back
    the object that was dumped. *)
Inductive file_text : Type :=
| Undecodable
| NotJSON
| JSONText (v : pyval)
| LoadError (e : exn).

(** [file]: the persistence file, [None] when it does not exist;
    [writes]: how many times it was opened for writing;
    [stdout]: the lines printed, latest first;
    [entropy n]: the 16 bytes (as a big-endian integer) that the [n]-th call
    of [os.urandom(16)] returns; [drawn]: the calls made so far. *)
Record World : Type := mkWorld {
  file : option file_text;
  writes : nat;
  stdout : list string;
  entropy : nat -> Z;
  drawn : nat
}.

Definition print (line : string) : M World unit :=
  fun w => (Ok tt, mkWorld (file w) (writes w) (line :: stdout w) (entropy w) (drawn w)).

Definition os_urandom16 : M World Z :=
  fun w => (Ok (entropy w (drawn w) mod 2 ^ 128),
            mkWorld (file w) (writes w) (stdout w) (entropy w) (S (drawn w))).

(** [uuid.uuid4().int]: 128 random bits with the variant bits set to RFC
    4122 and the version bits to 4, as [uuid.UUID.__init__] does. *)
Definition uuid4_of (r : Z) : Z :=
  let i := Z.ldiff r (Z.shiftl 0xc000 48) in
  let i := Z.lor i (Z.shiftl 0x8000 48) in
  let i := Z.ldiff i (Z.shiftl 0xf000 64) in
  Z.lor i (Z.shiftl 4 76).

Definition uuid4_int : M World Z :=
  r <- os_urandom16 ;; ret (uuid4_of r).

(** [str(i)] for an [int]. *)
Definition str (i : Z) : string := NilZero.string_of_int (Z.to_int i).

(** [s[:n]]. *)
Definition upto (n : nat) (s : string) : string := substring 0 n s.

(** ** class Task *)
Module Task.

Record t : Type := mk {
  id : pyval;
  title : pyval;
  priority : pyval;
  is_done : pyval
}.

Definition __init__ (title priority is_done task_id : pyval) : M World t :=
  id <- (if truthy task_id then ret task_id
         else (i <- uuid4_int ;; ret (PStr (upto 8 (str i))))) ;;
  ret (mk id title
         (if in_strs priority ["low"; "normal"; "high"] then priority else PStr "normal")
         is_done).

Definition to_dict (self : t) : pyval :=
  PDict [("id", id self); ("title", title self);
         ("priority", priority self); ("isDone", is_done self)].

Definition from_dict (data : pyval) : M World t :=
  title <- lift_result (subscript data "title") ;;
  priority <- lift_result (subscript data "priority") ;;
  is_done <- lift_result (subscript data "isDone") ;;
  task_id <- lift_result (subscript data "id") ;;
  __init__ title priority is_done task_id.

End Task.

(** ** class TaskManager *)

(** The process state: the [tasks] dictionary of the one [TaskManager]
    (the class attribute [TaskHandler.task_manager]) and the world. *)
Record State : Type := mkState {
  tasks : list (hkey * Task.t);
  world : World
}.

(** Run a computation that only touches the world. *)
Definition in_world {A : Type} (m : M World A) : M State A :=
  fun s => let '(r, w) := m (world s) in (r, mkState (tasks s) w).

Module TaskManager.

(** [open(DATA_FILE, "w")] empties the file; [json.dump] then writes the
    array, or raises [UnicodeEncodeError] on a string that UTF-8 cannot
    encode, which leaves a file cut short. *)
Definition save_tasks : M State unit :=
  fun s =>
    let tasks_data := map Task.to_dict (dict_values (tasks s)) in
    let w := world s in
    if dumpable (PList tasks_data) then
      (Ok tt, mkState (tasks s)
                (mkWorld (Some (JSONText (PList tasks_data))) (S (writes w))
                   (stdout w) (entropy w) (drawn w)))
    else
      (Raise UnicodeEncodeError,
       mkState (tasks s)
         (mkWorld (Some NotJSON) (S (writes w)) (stdout w) (entropy w) (drawn w))).

(** [self.tasks[task.id] = task]. *)
Definition store (task : Task.t) : M State unit :=
  fun s =>
    match hash_key (Task.id task) with
    | Ok k => (Ok tt, mkState (dict_set k task (tasks s)) (world s))
    | Raise e => (Raise e, s)
    end.

Definition add_task (title priority : pyval) : M State Task.t :=
  task <- in_world (Task.__init__ title priority (PBool false) PNone) ;;
  store task ;;;
  save_tasks ;;;
  ret task.

Definition get_all_tasks : M State (list Task.t) :=
  fun s => (Ok (dict_values (tasks s)), s).

Definition get_task (task_id : string) : M State (option Task.t) :=
  fun s => (Ok (dict_get (KStr task_id) (tasks s)), s).

(** [task.is_done = True]: [task] is the object the dictionary holds under
    [task_id], so the assignment is seen through the dictionary. *)
Definition set_is_done (task_id : string) (task : Task.t) : M State unit :=
  fun s =>
    let task' := Task.mk (Task.id task) (Task.title task) (Task.priority task)
                   (PBool true) in
    (Ok tt, mkState (dict_set (KStr task_id) task' (tasks s)) (world s)).

(** An instance of [Task] is always true: the class defines neither
    [__bool__] nor [__len__]. *)
Definition mark_as_done (task_id : string) : M State bool :=
  task <- get_task task_id ;;
  match task with
  | Some task => set_is_done task_id task ;;; save_tasks ;;; ret true
  | None => ret false
  end.

Definition json_load (f : file_text) : M State pyval :=
  match f with
  | Undecodable => raise UnicodeDecodeError
  | NotJSON => raise JSONDecodeError
  | JSONText v => ret v
  | LoadError e => raise e
  end.

Definition load_tasks : M State unit :=
  fun s =>
    match file (world s) with
    | Some f =>
        try_except
          (tasks_data <- json_load f ;;
           items <- lift_result (iterate tasks_data) ;;
           for_each items (fun task_data =>
             task <- in_world (Task.from_dict task_data) ;;
             store task))
          (fun e => match e with JSONDecodeError | KeyError => true | _ => false end)
          (in_world (print "Ошибка при загрузке задач. Начинаем с чистого списка.") ;;;
           fun s' => (Ok tt, mkState [] (world s')))
          s
    | None => (Ok tt, s)
    end.

(** [TaskManager()], run in world [w]. *)
Definition __init__ (w : World) : result unit * State :=
  load_tasks (mkState [] w).

End TaskManager.

(** ** class TaskHandler *)

(** [s.strip(c)] and [s.split(c)] for a one-character [c]. *)
Fixpoint lstrip (c : ascii) (s : string) : string :=
  match s with
  | EmptyString => EmptyString
  | String a s' => if Ascii.eqb a c then lstrip c s' else s
  end.

Fixpoint rstrip (c : ascii) (s : string) : string :=
  match s with
  | EmptyString => EmptyString
  | String a s' =>
      match rstrip c s' with
      | EmptyString => if Ascii.eqb a c then EmptyString else String a EmptyString
      | r => String a r
      end
  end.

Definition strip (c : ascii) (s : string) : string := rstrip c (lstrip c s).

Fixpoint split (c : ascii) (s : string) : list string :=
  match s with
  | EmptyString => [EmptyString]
  | String a s' =>
      if Ascii.eqb a c then EmptyString :: split c s'
      else match split c s' with
           | h :: t => String a h :: t
           | [] => [String a EmptyString]
           end
  end.

(** A decoded request body, as the two decoders of the handler see it:
    [json_loads] is [json.loads(body)]: the object decoded, or the
    exception raised ([JSONDecodeError] for a text that is not JSON,
    [ValueError] for an integer of more than 4300 digits, [RecursionError]
    for too deep a nesting); [parse_qs] is [urllib.parse.parse_qs(body)], which
    maps each field name of a form to the list of its values, never empty:
    the first value and the others. *)
Record Text : Type := mkText {
  json_loads : result pyval;
  parse_qs : list (string * (string * list string))
}.

(** What the handler reads of a request:
    [url_path] is [urlparse(self.path).path], or the [ValueError] that
    [urlparse] raises (on a path that opens an IPv6 host and never
    closes it);
    [content_type] is [self.headers.get('Content-Type')];
    [content_length] is [int(self.headers.get('Content-Length', 0))],
    [None] when [int] raises [ValueError];
    [body] is [self.rfile.read(content_length).decode('utf-8')], [None]
    when the bytes read are not UTF-8;
    [log_line] is the line [log_message] prints for the request,
    [f"{self.address_string()} - {self.command} {self.path}"]. *)
Record Request : Type := mkRequest {
  url_path : result string;
  content_type : option string;
  content_length : option Z;
  body : option Text;
  log_line : string
}.

(** What the handler sends: the status line, the headers it adds, and the
    object whose [json.dumps] it writes, if any. *)
Record Response : Type := mkResponse {
  status : Z;
  headers : list (string * string);
  payload : option pyval
}.

Module TaskHandler.

(** [log_message], which [send_response] calls through [log_request]:
    every answer prints one line. *)
Definition log_message (req : Request) : M State unit :=
  in_world (print (log_line req)).

(** The body is [json.dumps(data, ensure_ascii=False).encode("utf-8")],
    written after the status line and the headers. *)
Definition _send_json_response (req : Request) (status_code : Z)
  (data : option pyval) : M State Response :=
  log_message req ;;;
  match data with
  | Some v =>
      if dumpable v then
        ret (mkResponse status_code
               [("Content-Type", "application/json; charset=utf-8")] data)
      else raise UnicodeEncodeError
  | None =>
      ret (mkResponse status_code
             [("Content-Type", "application/json; charset=utf-8")] None)
  end.

Definition _send_empty_response (req : Request) (status_code : Z) : M State Response :=
  log_message req ;;; ret (mkResponse status_code [] None).

(** [send_response(303); send_header('Location', '/'); end_headers()]. *)
Definition redirect_home (req : Request) : M State Response :=
  log_message req ;;; ret (mkResponse 303 [("Location", "/")] None).

Definition _parse_path (req : Request) : result (list string) :=
  match url_path req with
  | Ok path => Ok (split "/" (strip "/" path))
  | Raise e => Raise e
  end.

Definition int_content_length (req : Request) : M State Z :=
  match content_length req with
  | Some n => ret n
  | None => raise ValueError
  end.

Definition read_decoded (req : Request) : M State Text :=
  match body req with
  | Some text => ret text
  | None => raise UnicodeDecodeError
  end.

Definition is_json (req : Request) : bool :=
  match content_type req with
  | Some ct => (ct =? "application/json")%string
  | None => false
  end.

(** Returns [PNone] for Python's [None]; only [JSONDecodeError] is caught. *)
Definition _read_json_body (req : Request) : M State pyval :=
  content_length <- int_content_length req ;;
  if content_length =? 0 then ret PNone
  else
    body <- read_decoded req ;;
    match json_loads body with
    | Ok v => ret v
    | Raise JSONDecodeError => ret PNone
    | Raise e => raise e
    end.

(** [params.get(name, [default])[0]]. *)
Definition first_value (params : list (string * (string * list string)))
  (name default : string) : string :=
  match items_get name params with
  | Some (v, _) => v
  | None => default
  end.

Definition do_POST (req : Request) : M State Response :=
  path_parts <- lift_result (_parse_path req) ;;
  if (List.length path_parts =? 1)%nat && (nth 0 path_parts "" =? "tasks")%string then
    if is_json req then
      data <- _read_json_body req ;;
      bad <- (if negb (truthy data) then ret true
              else (has <- lift_result (contains data "title") ;; ret (negb has))) ;;
      if bad : bool then _send_empty_response req 400
      else
        priority <- lift_result (get_default data "priority" (PStr "normal")) ;;
        title <- lift_result (subscript data "title") ;;
        task <- TaskManager.add_task title priority ;;
        _send_json_response req 201 (Some (Task.to_dict task))
    else
      content_length <- int_content_length req ;;
      (if content_length >? 0 then
         body <- read_decoded req ;;
         let params := parse_qs body in
         let title := first_value params "title" "" in
         let priority := first_value params "priority" "normal" in
         if negb (title =? "")%string then
           TaskManager.add_task (PStr title) (PStr priority) ;;; ret tt
         else ret tt
       else ret tt) ;;;
      redirect_home req
  else if (List.length path_parts =? 3)%nat && (nth 0 path_parts "" =? "tasks")%string
          && (nth 2 path_parts "" =? "complete")%string then
    let task_id := nth 1 path_parts "" in
    done <- TaskManager.mark_as_done task_id ;;
    if done : bool then
      if is_json req then _send_empty_response req 200
      else redirect_home req
    else _send_empty_response req 404
  else _send_empty_response req 404.

End TaskHandler.


(** ** The states of the process

    The process starts by building the [TaskManager] from whatever the
    world holds, and then serves requests; [add_task] and [mark_as_done]
    are also steps of their own, for a caller that uses the store directly. *)
Inductive reachable : State -> Prop :=
| reach_start (w : World) (s : State) :
    TaskManager.__init__ w = (Ok tt, s) -> reachable s
| reach_add (s : State) (title priority : pyval) :
    reachable s -> reachable (snd (TaskManager.add_task title priority s))
| reach_mark (s : State) (task_id : string) :
    reachable s -> reachable (snd (TaskManager.mark_as_done task_id s))
| reach_post (s : State) (req : Request) :
    reachable s -> reachable (snd (TaskHandler.do_POST req s)).

(** What every reachable store satisfies: a task is held under the key of
    its own id, that id is a true object, its priority is one of the three
    levels, and no key occurs twice. *)
Definition entry_ok (kt : hkey * Task.t) : Prop :=
  hash_key (Task.id (snd kt)) = Ok (fst kt)
  /\ truthy (Task.id (snd kt)) = true
  /\ in_strs (Task.priority (snd kt)) ["low"; "normal"; "high"] = true.

Definition store_ok (d : list (hkey * Task.t)) : Prop :=
  Forall entry_ok d /\ NoDup (dict_keys d).

(** The id that [Task.__init__] generates in world [w]. *)
Definition next_id (w : World) : string :=
  upto 8 (str (uuid4_of (entropy w (drawn w) mod 2 ^ 128))).

(** The world after one more call of [os.urandom]. *)
Definition drew (w : World) : World :=
  mkWorld (file w) (writes w) (stdout w) (entropy w) (S (drawn w)).

(** The world after [save_tasks] wrote the tasks [d], and after it failed
    on them. *)
Definition saved (d : list (hkey * Task.t)) (w : World) : World :=
  mkWorld (Some (JSONText (PList (map Task.to_dict (dict_values d)))))
    (S (writes w)) (stdout w) (entropy w) (drawn w).

Definition cut_short (w : World) : World :=
  mkWorld (Some NotJSON) (S (writes w)) (stdout w) (entropy w) (drawn w).

(** Every string held by the tasks [d] can be encoded, so that
    [save_tasks] succeeds on them. *)
Definition store_dumpable (d : list (hkey * Task.t)) : bool :=
  dumpable (PList (map Task.to_dict (dict_values d))).

(** The world after an attempt to persist [d]. *)
Definition persisted (d : list (hkey * Task.t)) (w : World) : World :=
  if store_dumpable d then saved d w else cut_short w.

(** What [save_tasks] returns on [d]. *)
Definition persist_result {A : Type} (d : list (hkey * Task.t)) (a : A) : result A :=
  if store_dumpable d then Ok a else Raise UnicodeEncodeError.

(** The state after the answer to [req] was logged. *)
Definition logged (req : Request) (s : State) : State :=
  mkState (tasks s)
    (mkWorld (file (world s)) (writes (world s)) (log_line req :: stdout (world s))
       (entropy (world s)) (drawn (world s))).

(** The task [add_task] builds in world [w]. *)
Definition new_task (title priority : pyval) (w : World) : Task.t :=
  Task.mk (PStr (next_id w)) title
    (if in_strs priority ["low"; "normal"; "high"] then priority else PStr "normal")
    (PBool false).

(** The part of [do_POST] that follows [data = self._read_json_body()]. *)
Definition create_from_json (req : Request) (data : pyval) : M State Response :=
  bad <- (if negb (truthy data) then ret true
          else (has <- lift_result (contains data "title") ;; ret (negb has))) ;;
  if bad : bool then TaskHandler._send_empty_response req 400
  else
    priority <- lift_result (get_default data "priority" (PStr "normal")) ;;
    title <- lift_result (subscript data "title") ;;
    task <- TaskManager.add_task title priority ;;
    TaskHandler._send_json_response req 201 (Some (Task.to_dict task)).

(** ** Example worlds and requests *)

(** A world without a persistence file whose [n]-th random draw is [n]:
    successive draws differ, yet their uuid integers share their first
    eight decimal digits. *)
Definition world_close : World := mkWorld None 0 [] (fun n => Z.of_nat n) 0.

(** A world without a persistence file whose random draws differ in their
    leading byte. *)
Definition world_spread : World :=
  mkWorld None 0 [] (fun n => Z.of_nat n * 2 ^ 120) 0.

Definition state_close : State := snd (TaskManager.__init__ world_close).
Definition state_spread : State := snd (TaskManager.__init__ world_spread).

(** The store after one task was added. *)
Definition state_milk : State :=
  snd (TaskManager.add_task (PStr "Buy milk") (PStr "high") state_spread).

(** A world whose persistence file holds [f]. *)
Definition world_with (f : file_text) : World :=
  mkWorld (Some f) 0 [] (fun _ => 0) 0.

(** The string whose one character is the lone surrogate U+D800, which
    the JSON text ["\ud800"] decodes to. *)
Definition lone_surrogate : string :=
  String (ascii_of_nat 237) (String (ascii_of_nat 160) (String (ascii_of_nat 128) "")).

(** The store that [TaskManager()] loads from a file holding one task
    whose title is that string. *)
Definition state_surrogate : State :=
  snd (TaskManager.__init__ (world_with (JSONText (PList [
    PDict [("id", PStr "7"); ("title", PStr lone_surrogate);
           ("priority", PStr "low"); ("isDone", PBool false)]])))).


(** [POST /tasks] with the JSON body [{"title":"Buy milk","priority":"high"}]. *)
Definition req_high : Request :=
  mkRequest (Ok "/tasks") (Some "application/json") (Some 38)
    (Some (mkText (Ok (PDict [("title", PStr "Buy milk"); ("priority", PStr "high")]))
             []))
    "127.0.0.1 - POST /tasks".

(** [POST /tasks] from a form, with the one-byte body [0xFF], which is not
    UTF-8. *)
Definition req_bad_bytes : Request :=
  mkRequest (Ok "/tasks") (Some "application/x-www-form-urlencoded") (Some 1) None
    "127.0.0.1 - POST /tasks".

(** [POST /tasks] from a form with the body [title=Walk+dog]. *)
Definition req_form_walk : Request :=
  mkRequest (Ok "/tasks") (Some "application/x-www-form-urlencoded") (Some 14)
    (Some (mkText (Raise JSONDecodeError) [("title", ("Walk dog", []))]))
    "127.0.0.1 - POST /tasks".

(** [POST /tasks/<task_id>/complete] without a body, from a caller with
    the Content-Type [ct]. *)
Definition req_complete (ct task_id : string) : Request :=
  mkRequest (Ok ("/tasks/" ++ task_id ++ "/complete")%string) (Some ct)
    (Some 0) (Some (mkText (Raise JSONDecodeError) []))
    ("127.0.0.1 - POST /tasks/" ++ task_id ++ "/complete")%string.

(** ** Vocabulary of the further properties *)

(** [c.join(parts)] for a one-character [c]. *)
Fixpoint join (c : ascii) (parts : list string) : string :=
  match parts with
  | [] => EmptyString
  | [p] => p
  | p :: rest => (p ++ String c (join c rest))%string
  end.

(** A decimal digit. *)
Definition is_digit (a : ascii) : bool :=
  (48 <=? nat_of_ascii a)%nat && (nat_of_ascii a <=? 57)%nat.

(** The line [load_tasks] prints when it starts from a clean list. *)
Definition load_error_line : string :=
  "Ошибка при загрузке задач. Начинаем с чистого списка.".

(** A JSON object that has the four fields of a task. *)
Definition has_task_fields (d : list (string * pyval)) : Prop :=
  items_get "title" d <> None /\ items_get "priority" d <> None
  /\ items_get "isDone" d <> None /\ items_get "id" d <> None.

(** A task object that [load_tasks] can store: it has the four fields and
    its id is empty (a fresh one is generated) or hashable. *)
Definition loadable (v : pyval) : Prop :=
  exists d : list (string * pyval),
    v = PDict d /\ has_task_fields d
    /\ forall i : pyval, items_get "id" d = Some i ->
         truthy i = true -> exists k : hkey, hash_key i = Ok k.

(** Two worlds that differ at most in the number of random draws made. *)
Definition same_but_draws (w w' : World) : Prop :=
  file w' = file w /\ writes w' = writes w /\ stdout w' = stdout w
  /\ entropy w' = entropy w.

(** The persistence file holds the dump of the tasks in memory. *)
Definition in_sync (s : State) : Prop :=
  file (world s) = Some (JSONText (PList (map Task.to_dict (dict_values (tasks s))))).

(** What a call of [do_POST] that ended in [(r, s')] from [s] did: it
    raised before it touched anything; it answered 303, 400 or 404,
    leaving only its log line; it changed the store, wrote it to the file
    and answered 200, 201 or 303; or it changed the store and [save_tasks]
    raised on it. *)
Definition post_outcome (req : Request) (s : State) (r : result Response) (s' : State)
  : Prop :=
  (s' = s /\ exists e : exn, r = Raise e)
  \/ (s' = logged req s
      /\ exists resp : Response,
           r = Ok resp
           /\ (status resp = 303
               \/ (headers resp = [] /\ payload resp = None
                   /\ (status resp = 400 \/ status resp = 404))))
  \/ (in_sync s' /\ store_dumpable (tasks s') = true
      /\ writes (world s') = S (writes (world s))
      /\ exists resp : Response,
           r = Ok resp /\ (status resp = 200 \/ status resp = 201 \/ status resp = 303))
  \/ (r = Raise UnicodeEncodeError /\ file (world s') = Some NotJSON
      /\ store_dumpable (tasks s') = false
      /\ writes (world s') = S (writes (world s))).

(** * Properties *)

(** ** Dictionaries *)
Lemma hkey_eqb_spec (a b : hkey) : reflect (a = b) (hkey_eqb a b).
Proof.
  destruct a, b; simpl; try (constructor; congruence).
  - destruct (Z.eqb_spec z z0); constructor; congruence.
  - destruct (Bool.eqb_spec neg neg0); simpl; [ | constructor; congruence ].
    destruct (Pos.eqb_spec m m0); simpl; [ | constructor; congruence ].
    destruct (Pos.eqb_spec e e0); constructor; congruence.
  - destruct (Bool.eqb_spec neg neg0); constructor; congruence.
  - destruct (String.eqb_spec s s0); constructor; congruence.
Qed.


Lemma hkey_eqb_refl (k : hkey) : hkey_eqb k k = true.
Proof. destruct (hkey_eqb_spec k k); congruence. Qed.

Lemma hkey_eqb_neq (k k' : hkey) : k <> k' -> hkey_eqb k k' = false.
Proof. destruct (hkey_eqb_spec k k'); congruence. Qed.

Section Dict.
Context {V : Type}.
Implicit Types (d : list (hkey * V)) (k : hkey) (v : V).

Lemma dict_get_set_same d k v : dict_get k (dict_set k v d) = Some v.
Proof.
  induction d as [| [k' v'] d IH]; simpl.
  - now rewrite hkey_eqb_refl.
  - destruct (hkey_eqb k' k) eqn:E; simpl; rewrite E; auto.
Qed.

Lemma dict_get_set_other d k k' v :
  k' <> k -> dict_get k' (dict_set k v d) = dict_get k' d.
Proof.
  intros Hne. induction d as [| [k0 v0] d IH]; simpl.
  - rewrite hkey_eqb_neq; auto.
  - destruct (hkey_eqb_spec k0 k) as [-> | Hk]; simpl.
    + rewrite hkey_eqb_neq; auto.
    + now rewrite IH.
Qed.

Lemma dict_get_none d k : dict_get k d = None <-> ~ In k (dict_keys d).
Proof.
  induction d as [| [k' v'] d IH]; simpl.
  - tauto.
  - destruct (hkey_eqb_spec k' k) as [-> | Hk].
    + split; [discriminate | tauto].
    + rewrite IH. tauto.
Qed.

Lemma dict_get_in d k v : dict_get k d = Some v -> In (k, v) d.
Proof.
  induction d as [| [k' v'] d IH]; simpl; [discriminate |].
  destruct (hkey_eqb_spec k' k) as [-> | Hk].
  - intros [= ->]. now left.
  - auto.
Qed.

Lemma dict_set_new d k v : dict_get k d = None -> dict_set k v d = d ++ [(k, v)].
Proof.
  induction d as [| [k' v'] d IH]; simpl; [reflexivity |].
  destruct (hkey_eqb k' k); [discriminate |].
  intros H. now rewrite IH.
Qed.

Lemma dict_keys_set_old d k v v' :
  dict_get k d = Some v' -> dict_keys (dict_set k v d) = dict_keys d.
Proof.
  induction d as [| [k0 v0] d IH]; simpl; [discriminate |].
  destruct (hkey_eqb k0 k); simpl; [reflexivity |].
  intros H. now rewrite IH.
Qed.


Lemma dict_keys_set d k v :
  dict_keys (dict_set k v d) = dict_keys d
  \/ (~ In k (dict_keys d) /\ dict_keys (dict_set k v d) = dict_keys d ++ [k]).
Proof.
  destruct (dict_get k d) eqn:E.
  - left. eapply dict_keys_set_old; eauto.
  - right. split; [now apply dict_get_none |].
    rewrite dict_set_new by assumption. unfold dict_keys. now rewrite map_app.
Qed.

Lemma dict_set_in d k v kv :
  In kv (dict_set k v d) -> kv = (k, v) \/ In kv d.
Proof.
  induction d as [| [k0 v0] d IH]; simpl.
  - intros [H | []]. now left.
  - destruct (hkey_eqb_spec k0 k) as [-> | Hk]; simpl.
    + intros [H | H]; [left | right; right]; auto.
    + intros [H | H]; [right; left; assumption |].
      destruct (IH H); [left | right; right]; assumption.
Qed.

End Dict.

(** ** The store operations, as equations *)



Lemma store_dumpable_in (d : list (hkey * Task.t)) (k : hkey) (task : Task.t) :
  store_dumpable d = true -> In (k, task) d -> dumpable (Task.to_dict task) = true.
Proof.
  unfold store_dumpable, dict_values. cbn [dumpable]. intros Hd Hin.
  rewrite forallb_forall in Hd. apply Hd.
  apply in_map. now apply (in_map snd _ (k, task)).
Qed.

Lemma add_task_eq (title priority : pyval) (s : State) :
  TaskManager.add_task title priority s =
  (let d := dict_set (KStr (next_id (world s))) (new_task title priority (world s))
              (tasks s) in
   (persist_result d (new_task title priority (world s)),
    mkState d (persisted d (drew (world s))))).
Proof.
  cbv zeta. unfold persist_result, persisted, store_dumpable.
  unfold TaskManager.add_task, bind, in_world, Task.__init__, TaskManager.store,
    TaskManager.save_tasks, uuid4_int, os_urandom16, bind, ret.
  cbn [truthy world tasks hash_key Task.id dict_values].
  destruct (dumpable _); reflexivity.
Qed.

Lemma mark_as_done_found (task_id : string) (s : State) (task : Task.t) :
  dict_get (KStr task_id) (tasks s) = Some task ->
  TaskManager.mark_as_done task_id s =
  (let d := dict_set (KStr task_id)
              (Task.mk (Task.id task) (Task.title task) (Task.priority task) (PBool true))
              (tasks s) in
   (persist_result d true, mkState d (persisted d (world s)))).
Proof.
  intros H. cbv zeta. unfold persist_result, persisted, store_dumpable.
  unfold TaskManager.mark_as_done, TaskManager.get_task, bind.
  rewrite H. unfold TaskManager.set_is_done, TaskManager.save_tasks, bind, ret.
  cbn [world tasks]. destruct (dumpable _); reflexivity.
Qed.

Lemma mark_as_done_missing (task_id : string) (s : State) :
  dict_get (KStr task_id) (tasks s) = None ->
  TaskManager.mark_as_done task_id s = (Ok false, s).
Proof.
  intros H. unfold TaskManager.mark_as_done, TaskManager.get_task, bind.
  rewrite H. reflexivity.
Qed.

Lemma dict_get_some {V : Type} (d : list (hkey * V)) (k : hkey) :
  In k (dict_keys d) -> exists v, dict_get k d = Some v.
Proof.
  intros H. destruct (dict_get k d) eqn:E; [eauto |].
  apply dict_get_none in E. contradiction.
Qed.

(** ** markDone *)

(** C6: marking an id that is not a key of the store returns [False] and
    leaves the whole state as it was: the tasks, the persistence file and
    the number of writes made to it. *)
Theorem mark_as_done_unknown_id (s : State) (task_id : string) :
  ~ In (KStr task_id) (dict_keys (tasks s)) ->
  TaskManager.mark_as_done task_id s = (Ok false, s)
  /\ tasks (snd (TaskManager.mark_as_done task_id s)) = tasks s
  /\ file (world (snd (TaskManager.mark_as_done task_id s))) = file (world s)
  /\ writes (world (snd (TaskManager.mark_as_done task_id s))) = writes (world s).
Proof.
  intros H. apply dict_get_none in H.
  rewrite (mark_as_done_missing _ _ H). auto.
Qed.

Lemma persisted_dumpable (d : list (hkey * Task.t)) (w : World) :
  store_dumpable d = true -> persisted d w = saved d w.
Proof. intros H. unfold persisted. now rewrite H. Qed.

Lemma persist_result_dumpable {A : Type} (d : list (hkey * Task.t)) (a : A) :
  store_dumpable d = true -> persist_result d a = Ok a.
Proof. intros H. unfold persist_result. now rewrite H. Qed.




(** C9: marking an id of the store changes the completion flag of the task
    held under that id and nothing else in the store: that task keeps its
    id, title and priority, every other key holds the task it held, and the
    keys are the same, in the same order.  The call returns [True] when the
    persist that follows succeeds. *)
Theorem mark_as_done_frame (s : State) (task_id : string) :
  In (KStr task_id) (dict_keys (tasks s)) ->
  exists (s' : State) (before after : Task.t),
    dict_get (KStr task_id) (tasks s) = Some before
    /\ snd (TaskManager.mark_as_done task_id s) = s'
    /\ (store_dumpable (tasks s') = true ->
        TaskManager.mark_as_done task_id s = (Ok true, s'))
    /\ dict_get (KStr task_id) (tasks s') = Some after
    /\ Task.id after = Task.id before
    /\ Task.title after = Task.title before
    /\ Task.priority after = Task.priority before
    /\ Task.is_done after = PBool true
    /\ (forall k : hkey, k <> KStr task_id ->
          dict_get k (tasks s') = dict_get k (tasks s))
    /\ dict_keys (tasks s') = dict_keys (tasks s).
Proof.
  intros H. destruct (dict_get_some _ _ H) as [task0 Hget].
  rewrite (mark_as_done_found _ _ _ Hget). cbv zeta.
  do 3 eexists. split; [exact Hget |]. split; [reflexivity |]. cbn [snd tasks].
  split; [intros Hd; now rewrite persisted_dumpable, persist_result_dumpable |].
  split; [apply dict_get_set_same |].
  repeat split.
  - intros k Hk. now apply dict_get_set_other.
  - eapply dict_keys_set_old; eauto.
Qed.

(** ** Generated ids *)

Lemma of_lu_bound (d : Decimal.uint) :
  (DecimalPos.Unsigned.of_lu d < 10 ^ N.of_nat (Decimal.nb_digits d))%N.
Proof.
  induction d; cbn [DecimalPos.Unsigned.of_lu Decimal.nb_digits];
    rewrite ?Nnat.Nat2N.inj_succ, ?N.pow_succ_r'; simpl N.of_nat; lia.
Qed.

Lemma length_string_of_uint (d : Decimal.uint) :
  String.length (NilEmpty.string_of_uint d) = Decimal.nb_digits d.
Proof. induction d; simpl; congruence. Qed.

Lemma str_length_pos (p : positive) (n : nat) :
  (10 ^ N.of_nat n <= N.pos p)%N -> (n < String.length (str (Z.pos p)))%nat.
Proof.
  intros H. unfold str. simpl Z.to_int. unfold Pos.to_int.
  assert (Hs : String.length (NilZero.string_of_int (Decimal.Pos (Pos.to_uint p)))
               = Decimal.nb_digits (Pos.to_uint p)).
  { unfold NilZero.string_of_int, NilZero.string_of_uint.
    destruct (Pos.to_uint p) eqn:E; try (rewrite <- E at 2; rewrite <- length_string_of_uint; rewrite E; reflexivity).
    exfalso. eapply DecimalPos.Unsigned.to_uint_nonnil; eauto. }
  rewrite Hs.
  pose proof (of_lu_bound (Decimal.rev (Pos.to_uint p))) as Hb.
  rewrite <- DecimalPos.Unsigned.of_uint_alt, DecimalPos.Unsigned.of_to in Hb.
  rewrite DecimalFacts.nb_digits_rev in Hb.
  destruct (Nat.lt_ge_cases n (Decimal.nb_digits (Pos.to_uint p))) as [Hlt | Hge]; [exact Hlt |].
  exfalso.
  assert (10 ^ N.of_nat (Decimal.nb_digits (Pos.to_uint p)) <= 10 ^ N.of_nat n)%N
    by (apply N.pow_le_mono_r; lia).
  lia.
Qed.

Lemma length_upto (n : nat) (s : string) :
  (n <= String.length s)%nat -> String.length (upto n s) = n.
Proof.
  unfold upto. revert s. induction n as [| n IH]; intros s H.
  - now destruct s.
  - destruct s as [| a s]; simpl in *; [lia |]. rewrite IH; [reflexivity | lia].
Qed.

Lemma testbit_lower_bound (x n : Z) :
  0 <= x -> 0 <= n -> Z.testbit x n = true -> 2 ^ n <= x.
Proof.
  intros Hx Hn Hb. destruct (Z.lt_ge_cases x (2 ^ n)) as [Hlt | Hge]; [| exact Hge].
  exfalso. destruct (Z.eq_dec x 0) as [-> | Hnz].
  - now rewrite Z.testbit_0_l in Hb.
  - rewrite Z.bits_above_log2 in Hb; [discriminate | lia |].
    apply Z.log2_lt_pow2; lia.
Qed.

Lemma uuid4_of_lower (r : Z) : 0 <= r -> 2 ^ 78 <= uuid4_of r.
Proof.
  intros Hr. apply testbit_lower_bound; [| lia |].
  - unfold uuid4_of. cbv zeta.
    apply Z.lor_nonneg. split; [| now vm_compute].
    apply Z.ldiff_nonneg. left.
    apply Z.lor_nonneg. split; [| now vm_compute].
    apply Z.ldiff_nonneg. now left.
  - unfold uuid4_of. cbv zeta. rewrite Z.lor_spec.
    apply orb_true_iff. right. reflexivity.
Qed.

Lemma next_id_length (w : World) : String.length (next_id w) = 8%nat.
Proof.
  unfold next_id. apply length_upto.
  pose proof (uuid4_of_lower (entropy w (drawn w) mod 2 ^ 128)) as H.
  assert (Hm : 0 <= entropy w (drawn w) mod 2 ^ 128) by (apply Z.mod_pos_bound; lia).
  specialize (H Hm).
  destruct (uuid4_of (entropy w (drawn w) mod 2 ^ 128)) as [| p | p] eqn:E; try lia.
  apply Nat.lt_le_incl. apply (str_length_pos p 8).
  assert (2 ^ 78 <= Z.pos p) by lia.
  assert (10 ^ 8 <= Z.pos p) by (etransitivity; [| eassumption]; now vm_compute).
  change (10 ^ N.of_nat 8)%N with (Z.to_N (10 ^ 8)). lia.
Qed.

Lemma next_id_truthy (w : World) : truthy (PStr (next_id w)) = true.
Proof.
  pose proof (next_id_length w) as H. simpl.
  destruct (next_id w); [discriminate | reflexivity].
Qed.

Lemma string_of_uint_digits (d : Decimal.uint) :
  forallb is_digit (list_ascii_of_string (NilEmpty.string_of_uint d)) = true.
Proof. induction d; simpl; auto. Qed.

Lemma upto_digits (n : nat) (s : string) :
  forallb is_digit (list_ascii_of_string s) = true ->
  forallb is_digit (list_ascii_of_string (upto n s)) = true.
Proof.
  unfold upto. revert s. induction n as [| n IH]; intros s H.
  - now destruct s.
  - destruct s as [| a s]; simpl in *; [reflexivity |].
    apply andb_true_iff in H. destruct H as [Ha Hs]. rewrite Ha. simpl. now apply IH.
Qed.

Lemma next_id_digits (w : World) :
  forallb is_digit (list_ascii_of_string (next_id w)) = true.
Proof.
  unfold next_id. apply upto_digits.
  pose proof (uuid4_of_lower (entropy w (drawn w) mod 2 ^ 128)) as H.
  assert (Hm : 0 <= entropy w (drawn w) mod 2 ^ 128) by (apply Z.mod_pos_bound; lia).
  specialize (H Hm).
  destruct (uuid4_of (entropy w (drawn w) mod 2 ^ 128)) as [| p | p].
  - reflexivity.
  - unfold str. simpl Z.to_int.
    unfold Pos.to_int, NilZero.string_of_int, NilZero.string_of_uint.
    destruct (Pos.to_uint p) eqn:E; try (rewrite <- E; apply string_of_uint_digits).
    reflexivity.
  - exfalso. assert (0 < 2 ^ 78) by reflexivity. lia.
Qed.

Lemma in_strs_levels_inv (p : pyval) :
  in_strs p ["low"; "normal"; "high"] = true ->
  p = PStr "low" \/ p = PStr "normal" \/ p = PStr "high".
Proof.
  unfold in_strs. destruct p as [| | | | s | |]; simpl; intros Hp; try discriminate.
  destruct (String.eqb_spec s "low") as [E | _]; [left; now rewrite E |].
  destruct (String.eqb_spec s "normal") as [E | _]; [right; left; now rewrite E |].
  destruct (String.eqb_spec s "high") as [E | _]; [right; right; now rewrite E |].
  discriminate.
Qed.





(** ** add *)

(** C1 (counterexample): two draws of [os.urandom] that differ give the id
    "30224067" twice; the second [add_task] returns a task with the id of
    the first one and takes its place in the store. *)
Lemma add_task_id_collision :
  exists (first second : Task.t) (s1 s2 : State),
    TaskManager.add_task (PStr "first") (PStr "low") state_close = (Ok first, s1)
    /\ TaskManager.add_task (PStr "second") (PStr "high") s1 = (Ok second, s2)
    /\ entropy world_close 0%nat <> entropy world_close 1%nat
    /\ Task.id second = Task.id first
    /\ dict_values (tasks s1) = [first]
    /\ dict_values (tasks s2) = [second]
    /\ first <> second.
Proof.
  do 4 eexists. split; [now vm_compute |]. split; [now vm_compute |].
  split; [discriminate |]. split; [reflexivity |].
  split; [reflexivity |]. split; [reflexivity |]. discriminate.
Qed.

Lemma dict_keys_set_fresh {V : Type} (d : list (hkey * V)) (k : hkey) (v : V) :
  ~ In k (dict_keys d) -> dict_keys (dict_set k v d) = dict_keys d ++ [k].
Proof.
  intros H. apply dict_get_none in H. rewrite (dict_set_new _ _ v H).
  unfold dict_keys. now rewrite map_app.
Qed.

Lemma dict_keys_set_in {V : Type} (d : list (hkey * V)) (k : hkey) (v : V) :
  In k (dict_keys d) -> dict_keys (dict_set k v d) = dict_keys d.
Proof.
  intros H. destruct (dict_get_some _ _ H) as [v' Hv]. eapply dict_keys_set_old; eauto.
Qed.

Lemma keys_not_longer {A : Type} (l : list A) (x : A) : l <> l ++ [x].
Proof.
  intros H. apply (f_equal (@List.length A)) in H.
  rewrite List.length_app in H. simpl in H. lia.
Qed.

(** C1 (amended): [add_task] gives the new task, as id, the first eight
    decimal digits of the uuid integer of a fresh random draw, and stores
    it under that id without looking whether the id is in use.  So the id
    is new among the keys of the store exactly when that string is not yet
    a key, and exactly then the task is appended; when the string is
    already a key, the keys stay as they are and the task under it is
    replaced.  Every other key holds the task it held. *)
Theorem add_task_generated_id (s : State) (title priority : pyval) :
  exists (task : Task.t) (i : string) (s' : State),
    snd (TaskManager.add_task title priority s) = s'
    /\ (store_dumpable (tasks s') = true ->
        TaskManager.add_task title priority s = (Ok task, s'))
    /\ Task.id task = PStr i
    /\ i = upto 8 (str (uuid4_of (entropy (world s) (drawn (world s)) mod 2 ^ 128)))
    /\ String.length i = 8%nat
    /\ dict_get (KStr i) (tasks s') = Some task
    /\ (forall k : hkey, k <> KStr i -> dict_get k (tasks s') = dict_get k (tasks s))
    /\ (~ In (KStr i) (dict_keys (tasks s))
        <-> dict_keys (tasks s') = dict_keys (tasks s) ++ [KStr i])
    /\ (In (KStr i) (dict_keys (tasks s))
        <-> dict_keys (tasks s') = dict_keys (tasks s)).
Proof.
  rewrite add_task_eq. cbv zeta.
  exists (new_task title priority (world s)), (next_id (world s)). eexists.
  split; [reflexivity |]. cbn [snd tasks].
  split; [intros Hd; now rewrite persisted_dumpable, persist_result_dumpable |].
  split; [reflexivity |]. split; [reflexivity |]. split; [apply next_id_length |].
  split; [apply dict_get_set_same |].
  split; [intros k Hk; now apply dict_get_set_other |].
  set (k := KStr (next_id (world s))). set (t := new_task title priority (world s)).
  split; split.
  - apply dict_keys_set_fresh.
  - intros Happ Hin. rewrite (dict_keys_set_in _ _ t Hin) in Happ.
    now apply keys_not_longer in Happ.
  - apply dict_keys_set_in.
  - intros Hsame. destruct (dict_get k (tasks s)) eqn:E.
    + apply dict_get_in in E. apply (in_map fst) in E. exact E.
    + exfalso. apply dict_get_none in E.
      rewrite (dict_keys_set_fresh _ _ t E) in Hsame.
      symmetry in Hsame. now apply keys_not_longer in Hsame.
Qed.



(** ** The invariant of the store *)

Lemma clamp_in_strs (priority : pyval) :
  in_strs (if in_strs priority ["low"; "normal"; "high"] then priority else PStr "normal")
    ["low"; "normal"; "high"] = true.
Proof. destruct (in_strs priority _) eqn:E; [exact E | reflexivity]. Qed.

Lemma store_ok_nil : store_ok [].
Proof. split; constructor. Qed.

Lemma store_ok_set (d : list (hkey * Task.t)) (k : hkey) (task : Task.t) :
  store_ok d -> entry_ok (k, task) -> store_ok (dict_set k task d).
Proof.
  intros [Hall Hnd] Hnew. split.
  - apply Forall_forall. intros kt Hin.
    destruct (dict_set_in _ _ _ _ Hin) as [-> | Hold]; [exact Hnew |].
    now apply (proj1 (Forall_forall _ _) Hall).
  - destruct (dict_keys_set d k task) as [-> | [Hfresh ->]]; [exact Hnd |].
    apply NoDup_app; [exact Hnd | repeat constructor; intros [] |].
    intros x Hx [<- | []]. contradiction.
Qed.

Lemma store_ok_add (title priority : pyval) (s : State) :
  store_ok (tasks s) -> store_ok (tasks (snd (TaskManager.add_task title priority s))).
Proof.
  intros H. rewrite add_task_eq. cbv zeta. simpl.
  apply store_ok_set; [exact H |].
  repeat split; simpl; [apply next_id_truthy | apply clamp_in_strs].
Qed.

Lemma store_ok_mark (task_id : string) (s : State) :
  store_ok (tasks s) -> store_ok (tasks (snd (TaskManager.mark_as_done task_id s))).
Proof.
  intros H. destruct (dict_get (KStr task_id) (tasks s)) as [task |] eqn:E.
  - rewrite (mark_as_done_found _ _ _ E). cbv zeta. simpl.
    apply store_ok_set; [exact H |].
    pose proof (proj1 (Forall_forall _ _) (proj1 H) _ (dict_get_in _ _ _ E)) as Hok.
    exact Hok.
  - now rewrite (mark_as_done_missing _ _ E).
Qed.

Lemma Task_init_ok (title priority is_done task_id : pyval) (w : World) :
  exists (task : Task.t) (w' : World),
    Task.__init__ title priority is_done task_id w = (Ok task, w')
    /\ truthy (Task.id task) = true
    /\ in_strs (Task.priority task) ["low"; "normal"; "high"] = true.
Proof.
  unfold Task.__init__, bind. destruct (truthy task_id) eqn:E.
  - do 2 eexists. split; [reflexivity |]. simpl. split; [exact E | apply clamp_in_strs].
  - do 2 eexists. split; [reflexivity |]. simpl.
    split; [apply (next_id_truthy w) | apply clamp_in_strs].
Qed.

Lemma from_dict_ok (data : pyval) (w : World) (task : Task.t) (w' : World) :
  Task.from_dict data w = (Ok task, w') ->
  truthy (Task.id task) = true
  /\ in_strs (Task.priority task) ["low"; "normal"; "high"] = true.
Proof.
  unfold Task.from_dict, bind, lift_result.
  destruct (subscript data "title"); [| discriminate].
  destruct (subscript data "priority"); [| discriminate].
  destruct (subscript data "isDone"); [| discriminate].
  destruct (subscript data "id"); [| discriminate].
  destruct (Task_init_ok a a0 a1 a2 w) as (t & w1 & -> & H1 & H2).
  intros [= <- _]. auto.
Qed.

Lemma store_step_ok (task_data : pyval) (s : State) :
  store_ok (tasks s) ->
  store_ok (tasks (snd ((task <- in_world (Task.from_dict task_data) ;;
                         TaskManager.store task) s))).
Proof.
  intros H. unfold bind, in_world.
  destruct (Task.from_dict task_data (world s)) as [[task | e] w'] eqn:E; simpl; [| exact H].
  unfold TaskManager.store. simpl.
  destruct (hash_key (Task.id task)) as [k | e] eqn:Ek; simpl; [| exact H].
  apply store_ok_set; [exact H |].
  destruct (from_dict_ok _ _ _ _ E). repeat split; assumption.
Qed.

Lemma for_each_ok {A : Type} (body : A -> M State unit) (items : list A) :
  (forall (x : A) (s : State), store_ok (tasks s) -> store_ok (tasks (snd (body x s)))) ->
  forall s : State, store_ok (tasks s) -> store_ok (tasks (snd (for_each items body s))).
Proof.
  intros Hbody. induction items as [| x items IH]; intros s H; simpl; [exact H |].
  unfold bind. specialize (Hbody x s H).
  destruct (body x s) as [[[] | e] s1]; simpl in *; auto.
Qed.

Lemma load_tasks_ok (s : State) :
  store_ok (tasks s) -> store_ok (tasks (snd (TaskManager.load_tasks s))).
Proof.
  intros H. unfold TaskManager.load_tasks.
  destruct (file (world s)) as [f |]; [| exact H].
  unfold try_except.
  match goal with |- context [match ?m s with _ => _ end] => 
    assert (Hm : store_ok (tasks (snd (m s)))) end.
  { unfold bind at 1. unfold TaskManager.json_load.
    destruct f; simpl; try exact H.
    unfold bind at 1. unfold lift_result.
    destruct (iterate v); simpl; [| exact H].
    apply for_each_ok; [| exact H]. intros x s1. apply store_step_ok. }
  match goal with |- context [match ?m s with _ => _ end] => 
    destruct (m s) as [[[] | e] s1] end; simpl in *; [exact Hm |].
  destruct e; simpl; try exact Hm; apply store_ok_nil.
Qed.

(** ** Running the monad *)

Lemma bind_ok {S A B : Type} (m : M S A) (f : A -> M S B) (s s' : S) (a : A) :
  m s = (Ok a, s') -> bind m f s = f a s'.
Proof. intros H. unfold bind. now rewrite H. Qed.

Lemma bind_raise {S A B : Type} (m : M S A) (f : A -> M S B) (s s' : S) (e : exn) :
  m s = (Raise e, s') -> bind m f s = (Raise e, s').
Proof. intros H. unfold bind. now rewrite H. Qed.

Lemma try_except_ok {S A : Type} (m handler : M S A) (caught : exn -> bool)
  (s s' : S) (a : A) :
  m s = (Ok a, s') -> try_except m caught handler s = (Ok a, s').
Proof. intros H. unfold try_except. now rewrite H. Qed.


(** ** The handler and the store *)

Lemma read_json_body_pure (req : Request) (s : State) :
  exists r : result pyval, TaskHandler._read_json_body req s = (r, s).
Proof.
  unfold TaskHandler._read_json_body, TaskHandler.int_content_length,
    TaskHandler.read_decoded, bind, ret, raise.
  destruct (content_length req) as [n |]; [| eauto].
  destruct (n =? 0); [eauto |].
  destruct (body req) as [text |]; [| eauto].
  destruct (json_loads text) as [v | e]; [eauto |]. destruct e; eauto.
Qed.

Lemma send_empty_eq (req : Request) (code : Z) (s : State) :
  TaskHandler._send_empty_response req code s = (Ok (mkResponse code [] None), logged req s).
Proof. reflexivity. Qed.


Lemma send_json_eq (req : Request) (code : Z) (v : pyval) (s : State) :
  TaskHandler._send_json_response req code (Some v) s
  = (if dumpable v
     then Ok (mkResponse code [("Content-Type", "application/json; charset=utf-8")] (Some v))
     else Raise UnicodeEncodeError, logged req s).
Proof.
  unfold TaskHandler._send_json_response, TaskHandler.log_message, bind, in_world, print.
  cbn beta iota zeta. destruct (dumpable v); reflexivity.
Qed.

Lemma create_from_json_tasks (req : Request) (data : pyval) (s : State) :
  tasks (snd (create_from_json req data s)) = tasks s
  \/ exists title priority : pyval,
       tasks (snd (create_from_json req data s))
       = tasks (snd (TaskManager.add_task title priority s)).
Proof.
  unfold create_from_json, bind, lift_result, ret.
  destruct (negb (truthy data)); cbn beta iota zeta; [now left |].
  destruct (contains data "title") as [[] |]; cbn [negb]; cbn beta iota zeta;
    [| now left | now left].
  destruct (get_default data "priority" (PStr "normal")) as [p |]; cbn beta iota zeta;
    [| now left].
  destruct (subscript data "title") as [t |]; cbn beta iota zeta; [| now left].
  right. exists t, p.
  destruct (TaskManager.add_task t p s) as [[task | e] s1]; cbn beta iota zeta;
    [rewrite send_json_eq |]; reflexivity.
Qed.


(** A request changes the tasks as one [add_task] or one [mark_as_done]
    does, or not at all. *)
Lemma do_POST_effect (req : Request) (s : State) :
  tasks (snd (TaskHandler.do_POST req s)) = tasks s
  \/ (exists title priority : pyval,
        tasks (snd (TaskHandler.do_POST req s))
        = tasks (snd (TaskManager.add_task title priority s)))
  \/ (exists task_id : string,
        tasks (snd (TaskHandler.do_POST req s))
        = tasks (snd (TaskManager.mark_as_done task_id s))).
Proof.
  unfold TaskHandler.do_POST.
  destruct (TaskHandler._parse_path req) as [parts | e]; [| now left].
  erewrite bind_ok by reflexivity.
  destruct (_ && _).
  - destruct (TaskHandler.is_json req).
    + destruct (read_json_body_pure req s) as [[data | e] Hr].
      * rewrite (bind_ok _ _ _ _ _ Hr).
        destruct (create_from_json_tasks req data s) as [H | H]; [left | right; left];
          exact H.
      * rewrite (bind_raise _ _ _ _ _ Hr). now left.
    + unfold TaskHandler.int_content_length, TaskHandler.read_decoded, bind, ret, raise.
      destruct (content_length req) as [n |]; cbn beta iota zeta; [| now left].
      destruct (n >? 0); cbn beta iota zeta; [| now left].
      destruct (body req) as [text |]; cbn beta iota zeta; [| now left].
      destruct (negb _); cbn beta iota zeta; [| now left].
      right. left.
      exists (PStr (TaskHandler.first_value (parse_qs text) "title" "")),
             (PStr (TaskHandler.first_value (parse_qs text) "priority" "normal")).
      destruct (TaskManager.add_task _ _ s) as [[task | e] s1]; reflexivity.
  - destruct (_ && _); [| now left].
    right. right. exists (nth 1 parts ""). unfold bind.
    destruct (TaskManager.mark_as_done _ s) as [[[] | e] s1]; try reflexivity.
    destruct (TaskHandler.is_json req); reflexivity.
Qed.

Lemma reachable_store_ok (s : State) : reachable s -> store_ok (tasks s).
Proof.
  induction 1 as [w s H | s title priority _ IH | s task_id _ IH | s req _ IH].
  - unfold TaskManager.__init__ in H.
    pose proof (load_tasks_ok (mkState [] w) store_ok_nil) as Hok.
    now rewrite H in Hok.
  - now apply store_ok_add.
  - now apply store_ok_mark.
  - destruct (do_POST_effect req s) as [-> | [(t & p & ->) | (i & ->)]].
    + exact IH.
    + now apply store_ok_add.
    + now apply store_ok_mark.
Qed.

(** ** persist and restore *)

Lemma from_dict_to_dict (task : Task.t) (w : World) :
  truthy (Task.id task) = true ->
  in_strs (Task.priority task) ["low"; "normal"; "high"] = true ->
  Task.from_dict (Task.to_dict task) w = (Ok task, w).
Proof.
  intros Hid Hprio. destruct task as [i t p d]. simpl in Hid, Hprio.
  unfold Task.from_dict, Task.to_dict, Task.__init__, bind, lift_result, ret. simpl.
  now rewrite Hid, Hprio.
Qed.

(** Loading the dump of entries whose keys are new appends them, in order,
    and touches nothing else. *)
Lemma load_entries (entries acc : list (hkey * Task.t)) (w : World) :
  Forall entry_ok entries ->
  NoDup (dict_keys acc ++ dict_keys entries) ->
  for_each (map Task.to_dict (dict_values entries))
    (fun task_data =>
       task <- in_world (Task.from_dict task_data) ;; TaskManager.store task)
    (mkState acc w)
  = (Ok tt, mkState (acc ++ entries) w).
Proof.
  revert acc. induction entries as [| [k task] entries IH]; intros acc Hall Hnd; simpl.
  - now rewrite List.app_nil_r.
  - inversion Hall as [| ? ? (Hk & Hid & Hprio) Hall']; subst. simpl in Hk, Hid, Hprio.
    unfold bind at 1. unfold bind at 1. unfold in_world. simpl world.
    rewrite (from_dict_to_dict task w Hid Hprio). simpl.
    unfold TaskManager.store. rewrite Hk. simpl.
    assert (Hnew : dict_get k acc = None).
    { apply dict_get_none. intros Hin.
      simpl in Hnd. apply NoDup_remove_2 in Hnd. apply Hnd.
      apply in_or_app. now left. }
    rewrite (dict_set_new _ _ _ Hnew).
    rewrite IH; [now rewrite <- List.app_assoc | exact Hall' |].
    unfold dict_keys in *. rewrite map_app. simpl in *.
    rewrite <- List.app_assoc. exact Hnd.
Qed.

Lemma init_from_dump (d : list (hkey * Task.t)) (w : World) :
  store_ok d ->
  file w = Some (JSONText (PList (map Task.to_dict (dict_values d)))) ->
  TaskManager.__init__ w = (Ok tt, mkState d w).
Proof.
  intros [Hall Hnd] Hfile. unfold TaskManager.__init__, TaskManager.load_tasks.
  simpl world. rewrite Hfile.
  apply try_except_ok.
  erewrite bind_ok by reflexivity.
  erewrite bind_ok by reflexivity.
  exact (load_entries d [] w Hall Hnd).
Qed.


Lemma state_surrogate_reachable : reachable state_surrogate.
Proof.
  apply (reach_start (world_with (JSONText (PList [
    PDict [("id", PStr "7"); ("title", PStr lone_surrogate);
           ("priority", PStr "low"); ("isDone", PBool false)]])))).
  reflexivity.
Qed.



(** ** restore on a file that does not hold tasks *)

(** C3: the persistence file holds valid JSON that is not an array of task
    objects, and [TaskManager()] raises [TypeError], which [load_tasks] does
    not catch: for the array [[1]], the number [5], the object [{"a": 1}],
    and a task object whose id is the array [[1]].  Neither does it catch
    the [UnicodeDecodeError] of a file that is not UTF-8. *)
Theorem load_tasks_uncaught_type_error :
  fst (TaskManager.__init__ (world_with (JSONText (PList [PInt 1])))) = Raise TypeError
  /\ fst (TaskManager.__init__ (world_with (JSONText (PInt 5)))) = Raise TypeError
  /\ fst (TaskManager.__init__ (world_with (JSONText (PDict [("a", PInt 1)]))))
     = Raise TypeError
  /\ fst (TaskManager.__init__ (world_with (JSONText (PList [PDict
            [("id", PList [PInt 1]); ("title", PStr "t");
             ("priority", PStr "low"); ("isDone", PBool false)]]))))
     = Raise TypeError
  /\ fst (TaskManager.__init__ (world_with Undecodable)) = Raise UnicodeDecodeError.
Proof. repeat (split; [reflexivity |]). reflexivity. Qed.

(** What [load_tasks] does catch: a text that is not JSON, and a task
    object that lacks a field, give an empty store and one diagnostic. *)
Lemma load_tasks_recovers :
  (exists s : State,
     TaskManager.__init__ (world_with NotJSON) = (Ok tt, s)
     /\ tasks s = [] /\ List.length (stdout (world s)) = 1%nat)
  /\ (exists s : State,
        TaskManager.__init__ (world_with (JSONText (PList [
          PDict [("id", PStr "a"); ("title", PStr "t");
                 ("priority", PStr "low"); ("isDone", PBool false)];
          PDict [("id", PStr "b"); ("title", PStr "u")]]))) = (Ok tt, s)
        /\ tasks s = [] /\ List.length (stdout (world s)) = 1%nat).
Proof. split; eexists; repeat split. Qed.

(** ** Request paths *)




(** ** POST /tasks, JSON *)





(** ** POST /tasks, JSON *)



(** ** POST /tasks/{id}/complete *)





(** ** POST /tasks, form *)

Lemma do_POST_tasks_form (req : Request) (s : State) :
  TaskHandler._parse_path req = Ok ["tasks"] ->
  content_type req <> Some "application/json" ->
  TaskHandler.do_POST req s =
  (content_length <- TaskHandler.int_content_length req ;;
   (if content_length >? 0 then
      body <- TaskHandler.read_decoded req ;;
      let params := parse_qs body in
      let title := TaskHandler.first_value params "title" "" in
      let priority := TaskHandler.first_value params "priority" "normal" in
      if negb (title =? "")%string then
        TaskManager.add_task (PStr title) (PStr priority) ;;; ret tt
      else ret tt
    else ret tt) ;;;
   TaskHandler.redirect_home req) s.
Proof.
  intros Hp Hc. unfold TaskHandler.do_POST. rewrite Hp.
  assert (Hj : TaskHandler.is_json req = false).
  { unfold TaskHandler.is_json. destruct (content_type req) as [ct |]; [| reflexivity].
    destruct (String.eqb_spec ct "application/json") as [-> | _]; [contradiction | reflexivity]. }
  rewrite Hj. reflexivity.
Qed.

(** C10: a form POST to [/tasks] whose one-byte body is not UTF-8 carries
    no title, and gets no 303: decoding the body raises
    [UnicodeDecodeError], nothing is logged and no response is sent. *)
Theorem post_form_undecodable_body :
  TaskHandler.do_POST req_bad_bytes state_spread = (Raise UnicodeDecodeError, state_spread)
  /\ content_type req_bad_bytes <> Some "application/json"
  /\ body req_bad_bytes = None.
Proof. split; [reflexivity |]. split; [discriminate | reflexivity]. Qed.

(** The redirect the form branch was written for: with an integer
    Content-Length that is not positive, or a UTF-8 body in which the field
    "title" has no non-empty value, the answer is a 303 redirect to [/], and
    the store and the file are unchanged. *)
Lemma post_tasks_form_without_title (req : Request) (s : State) (n : Z) :
  TaskHandler._parse_path req = Ok ["tasks"] ->
  content_type req <> Some "application/json" ->
  content_length req = Some n ->
  (n <= 0
   \/ exists text : Text,
        body req = Some text
        /\ forall (v : string) (vs : list string),
             items_get "title" (parse_qs text) = Some (v, vs) -> v = "") ->
  TaskHandler.do_POST req s = (Ok (mkResponse 303 [("Location", "/")] None), logged req s).
Proof.
  intros Hp Hc Hn Hbody. rewrite (do_POST_tasks_form req s Hp Hc).
  unfold TaskHandler.int_content_length, TaskHandler.read_decoded, bind, ret.
  rewrite Hn. cbn beta iota zeta.
  destruct (Z.gtb_spec n 0) as [Hpos | Hle]; cbn beta iota zeta; [| reflexivity].
  destruct Hbody as [Hneg | (text & Hb & Htitle)]; [lia |].
  rewrite Hb. cbn beta iota zeta.
  assert (Ht : TaskHandler.first_value (parse_qs text) "title" "" = "").
  { unfold TaskHandler.first_value.
    destruct (items_get "title" (parse_qs text)) as [[v vs] |] eqn:E; [| reflexivity].
    exact (Htitle v vs eq_refl). }
  rewrite Ht. reflexivity.
Qed.

(** * The theorems at work on concrete runs *)

Lemma state_spread_start : TaskManager.__init__ world_spread = (Ok tt, state_spread).
Proof. reflexivity. Qed.

Lemma state_milk_reachable : reachable state_milk.
Proof. apply reach_add. exact (reach_start _ _ state_spread_start). Qed.

Lemma state_milk_tasks :
  tasks state_milk
  = [(KStr "30224067",
      Task.mk (PStr "30224067") (PStr "Buy milk") (PStr "high") (PBool false))].
Proof. now vm_compute. Qed.

Lemma state_milk_keys : dict_keys (tasks state_milk) = [KStr "30224067"].
Proof. now rewrite state_milk_tasks. Qed.

Lemma state_milk_has_task : In (KStr "30224067") (dict_keys (tasks state_milk)).
Proof. rewrite state_milk_keys. now left. Qed.


(** A second task added to the store of one: its id "13292279" is new, and
    the task is appended and returned. *)
Lemma add_task_generated_id_witness :
  exists (task : Task.t) (s' : State),
    TaskManager.add_task (PStr "Walk dog") (PStr "low") state_milk = (Ok task, s')
    /\ Task.id task = PStr "13292279"
    /\ dict_keys (tasks s') = [KStr "30224067"; KStr "13292279"].
Proof.
  destruct (add_task_generated_id state_milk (PStr "Walk dog") (PStr "low"))
    as (task & i & s' & Hs & Hret & Hid & Hi & _ & _ & _ & Hfresh & _).
  assert (Ei : i = "13292279") by (rewrite Hi; now vm_compute).
  subst i. exists task, s'.
  assert (Hk : dict_keys (tasks s') = [KStr "30224067"; KStr "13292279"]).
  { rewrite (proj1 Hfresh); rewrite state_milk_keys; [reflexivity |].
    simpl. intros [E | []]. discriminate. }
  split; [| split; assumption].
  apply Hret. rewrite <- Hs. now vm_compute.
Defined.




Lemma mark_as_done_unknown_id_witness :
  ~ In (KStr "missing") (dict_keys (tasks state_milk))
  /\ TaskManager.mark_as_done "missing" state_milk = (Ok false, state_milk).
Proof.
  assert (H : ~ In (KStr "missing") (dict_keys (tasks state_milk))).
  { rewrite state_milk_keys. simpl. intros [E | []]. discriminate. }
  split; [exact H |]. exact (proj1 (mark_as_done_unknown_id state_milk "missing" H)).
Defined.


Lemma mark_as_done_frame_witness :
  In (KStr "30224067") (dict_keys (tasks state_milk))
  /\ exists (s' : State) (after : Task.t),
       TaskManager.mark_as_done "30224067" state_milk = (Ok true, s')
       /\ dict_get (KStr "30224067") (tasks s') = Some after
       /\ Task.title after = PStr "Buy milk"
       /\ Task.is_done after = PBool true.
Proof.
  split; [exact state_milk_has_task |].
  destruct (mark_as_done_frame state_milk "30224067" state_milk_has_task)
    as (s' & before & after & Hb & Hs & Hrun & Ha & _ & Htitle & _ & Hdone & _).
  exists s', after. split; [| split; [exact Ha |]].
  - apply Hrun. rewrite <- Hs. now vm_compute.
  - split; [| exact Hdone]. rewrite Htitle.
    rewrite state_milk_tasks in Hb. simpl in Hb. injection Hb as <-. reflexivity.
Defined.


(** * Further properties of the code *)

(** ** Task *)

(** X1: a task built by [Task.__init__], whatever the arguments, is given
    back unchanged by [from_dict (to_dict task)], and that draws no random
    bytes. *)
Theorem task_dict_roundtrip (title priority is_done task_id : pyval) (w w2 : World) :
  exists (task : Task.t) (w' : World),
    Task.__init__ title priority is_done task_id w = (Ok task, w')
    /\ Task.from_dict (Task.to_dict task) w2 = (Ok task, w2).
Proof.
  destruct (Task_init_ok title priority is_done task_id w) as (task & w' & Hrun & Hid & Hp).
  exists task, w'. split; [exact Hrun |]. now apply from_dict_to_dict.
Qed.

Lemma from_dict_fields (d : list (string * pyval)) (w : World) :
  has_task_fields d ->
  exists t p f i : pyval,
    items_get "title" d = Some t /\ items_get "priority" d = Some p
    /\ items_get "isDone" d = Some f /\ items_get "id" d = Some i
    /\ Task.from_dict (PDict d) w = Task.__init__ t p f i w.
Proof.
  intros (Ht & Hp & Hf & Hi).
  destruct (items_get "title" d) as [t |] eqn:Et; [| contradiction].
  destruct (items_get "priority" d) as [p |] eqn:Ep; [| contradiction].
  destruct (items_get "isDone" d) as [f |] eqn:Ef; [| contradiction].
  destruct (items_get "id" d) as [i |] eqn:Ei; [| contradiction].
  exists t, p, f, i. repeat split.
  unfold Task.from_dict, bind, lift_result, subscript. now rewrite Et, Ep, Ef, Ei.
Qed.

Lemma from_dict_key_error (d : list (string * pyval)) (w : World) :
  ~ has_task_fields d -> Task.from_dict (PDict d) w = (Raise KeyError, w).
Proof.
  intros H. unfold has_task_fields in H.
  unfold Task.from_dict, bind, lift_result, subscript.
  destruct (items_get "title" d); [| reflexivity].
  destruct (items_get "priority" d); [| reflexivity].
  destruct (items_get "isDone" d); [| reflexivity].
  destruct (items_get "id" d); [| reflexivity].
  exfalso. apply H. repeat split; discriminate.
Qed.

(** X2: [Task.from_dict] returns a task exactly when its argument is a
    [dict] with the keys "title", "priority", "isDone" and "id"; on a [dict]
    that lacks one of them it raises [KeyError], on any other object
    [TypeError], and in both cases the world is untouched. *)
Theorem from_dict_errors (data : pyval) (w : World) :
  (forall d : list (string * pyval), data = PDict d -> has_task_fields d ->
     exists (task : Task.t) (w' : World), Task.from_dict data w = (Ok task, w'))
  /\ (forall d : list (string * pyval), data = PDict d -> ~ has_task_fields d ->
        Task.from_dict data w = (Raise KeyError, w))
  /\ ((forall d : list (string * pyval), data <> PDict d) ->
        Task.from_dict data w = (Raise TypeError, w)).
Proof.
  split; [| split].
  - intros d -> H. destruct (from_dict_fields d w H) as (t & p & f & i & _ & _ & _ & _ & ->).
    destruct (Task_init_ok t p f i w) as (task & w' & Hrun & _). eauto.
  - intros d -> H. now apply from_dict_key_error.
  - intros H. destruct data; try reflexivity. exfalso. now apply (H d).
Qed.

Lemma from_dict_id_cases (d : list (string * pyval)) (i : pyval) (w : World) :
  has_task_fields d ->
  items_get "id" d = Some i ->
  exists task : Task.t,
    (truthy i = true ->
     Task.from_dict (PDict d) w = (Ok task, w) /\ Task.id task = i)
    /\ (truthy i = false ->
        Task.from_dict (PDict d) w = (Ok task, drew w)
        /\ Task.id task = PStr (next_id w)).
Proof.
  intros H Hi. destruct (from_dict_fields d w H) as (t & p & f & i' & _ & _ & _ & Hi' & ->).
  rewrite Hi in Hi'. injection Hi' as <-.
  unfold Task.__init__, bind. destruct (truthy i) eqn:E.
  - eexists. split; [intros _; split; reflexivity | discriminate].
  - eexists. split; [discriminate | intros _; split; reflexivity].
Qed.

(** X3: the id of a loaded task: [from_dict] keeps the "id" of the object
    when it is a true value and draws nothing; when it is a false value
    (null, "", 0, an empty array) it replaces it by a freshly generated id,
    a string of eight characters, which costs one random draw. *)
Theorem from_dict_id (d : list (string * pyval)) (i : pyval) (w : World) :
  has_task_fields d ->
  items_get "id" d = Some i ->
  exists task : Task.t,
    (truthy i = true ->
     Task.from_dict (PDict d) w = (Ok task, w) /\ Task.id task = i)
    /\ (truthy i = false ->
        exists fresh : string,
          Task.from_dict (PDict d) w = (Ok task, drew w)
          /\ Task.id task = PStr fresh
          /\ String.length fresh = 8%nat).
Proof.
  intros H Hi. destruct (from_dict_id_cases d i w H Hi) as (task & Htrue & Hfalse).
  exists task. split; [exact Htrue |].
  intros Hf. destruct (Hfalse Hf) as [Hrun Hid].
  exists (next_id w). repeat split; [exact Hrun | exact Hid | apply next_id_length].
Qed.

(** X4: whatever objects it is given, [Task.__init__] returns a task whose
    priority is one of the strings "low", "normal", "high", whose id is a
    true value, and whose title and completion flag are the arguments. *)
Theorem task_init_fields (title priority is_done task_id : pyval) (w : World) :
  exists (task : Task.t) (w' : World),
    Task.__init__ title priority is_done task_id w = (Ok task, w')
    /\ (Task.priority task = PStr "low" \/ Task.priority task = PStr "normal"
        \/ Task.priority task = PStr "high")
    /\ truthy (Task.id task) = true
    /\ Task.title task = title
    /\ Task.is_done task = is_done.
Proof.
  destruct (Task_init_ok title priority is_done task_id w) as (task & w' & Hrun & Hid & Hp).
  exists task, w'. split; [exact Hrun |]. split; [| split; [exact Hid |]].
  - unfold in_strs in Hp. revert Hp.
    destruct (Task.priority task) as [| | | | s | |]; simpl; intros Hp; try discriminate.
    destruct (String.eqb_spec s "low") as [E | _]; [left; now rewrite E |].
    destruct (String.eqb_spec s "normal") as [E | _]; [right; left; now rewrite E |].
    destruct (String.eqb_spec s "high") as [E | _]; [right; right; now rewrite E |].
    discriminate.
  - unfold Task.__init__, bind in Hrun.
    destruct (truthy task_id); injection Hrun as <- _; split; reflexivity.
Qed.

(** X5: the id that [Task.__init__] generates when it is given none is a
    string of exactly eight characters, each a decimal digit; in particular
    it is not empty and holds no slash. *)
Theorem generated_id_digits (title priority is_done task_id : pyval) (w : World) :
  truthy task_id = false ->
  exists (task : Task.t) (i : string),
    Task.__init__ title priority is_done task_id w = (Ok task, drew w)
    /\ Task.id task = PStr i
    /\ String.length i = 8%nat
    /\ forallb is_digit (list_ascii_of_string i) = true
    /\ ~ In "/"%char (list_ascii_of_string i).
Proof.
  intros Hf. unfold Task.__init__, bind. rewrite Hf.
  eexists. exists (next_id w). split; [reflexivity |]. split; [reflexivity |].
  split; [apply next_id_length |]. split; [apply next_id_digits |].
  intros Hin. pose proof (next_id_digits w) as Hd.
  rewrite forallb_forall in Hd. specialize (Hd _ Hin). discriminate.
Qed.

Lemma generated_id_digits_witness :
  truthy PNone = false
  /\ exists (task : Task.t) (i : string),
       Task.__init__ (PStr "Buy milk") (PStr "high") (PBool false) PNone world_spread
       = (Ok task, drew world_spread)
       /\ Task.id task = PStr i
       /\ String.length i = 8%nat.
Proof.
  split; [reflexivity |].
  destruct (generated_id_digits (PStr "Buy milk") (PStr "high") (PBool false) PNone
              world_spread eq_refl) as (task & i & Hrun & Hid & Hlen & _).
  exists task, i. repeat split; assumption.
Defined.

(** ** TaskManager *)

(** X6: in every state the process can reach, no key of the store occurs
    twice, and every task is held under the key of its own id, has a true
    value as id, and has one of "low", "normal", "high" as priority. *)
Theorem reachable_store_invariant (s : State) :
  reachable s ->
  NoDup (dict_keys (tasks s))
  /\ forall (k : hkey) (task : Task.t), In (k, task) (tasks s) ->
       hash_key (Task.id task) = Ok k
       /\ truthy (Task.id task) = true
       /\ (Task.priority task = PStr "low" \/ Task.priority task = PStr "normal"
           \/ Task.priority task = PStr "high").
Proof.
  intros Hr. destruct (reachable_store_ok s Hr) as [Hall Hnd]. split; [exact Hnd |].
  intros k task Hin.
  destruct (proj1 (Forall_forall _ _) Hall _ Hin) as (Hk & Hid & Hp).
  repeat split; [exact Hk | exact Hid | now apply in_strs_levels_inv].
Qed.

Lemma reachable_store_invariant_witness :
  reachable state_milk
  /\ forall (k : hkey) (task : Task.t), In (k, task) (tasks state_milk) ->
       hash_key (Task.id task) = Ok k.
Proof.
  split; [exact state_milk_reachable |].
  intros k task Hin.
  exact (proj1 (proj2 (reachable_store_invariant state_milk state_milk_reachable) k task Hin)).
Defined.

Lemma same_but_draws_refl (w : World) : same_but_draws w w.
Proof. repeat split. Qed.

Lemma same_but_draws_trans (w1 w2 w3 : World) :
  same_but_draws w1 w2 -> same_but_draws w2 w3 -> same_but_draws w1 w3.
Proof.
  intros (A1 & A2 & A3 & A4) (B1 & B2 & B3 & B4).
  repeat split; congruence.
Qed.

Lemma Task_init_world (title priority is_done task_id : pyval) (w : World) :
  same_but_draws w (snd (Task.__init__ title priority is_done task_id w)).
Proof.
  unfold Task.__init__, bind. destruct (truthy task_id); simpl; repeat split.
Qed.

Lemma from_dict_world (data : pyval) (w : World) :
  same_but_draws w (snd (Task.from_dict data w))
  /\ forall e : exn, fst (Task.from_dict data w) = Raise e ->
       (e = KeyError \/ e = TypeError) /\ snd (Task.from_dict data w) = w.
Proof.
  unfold Task.from_dict, bind, lift_result.
  assert (Hsub : forall k : string,
            (exists x, subscript data k = Ok x)
            \/ subscript data k = Raise KeyError \/ subscript data k = Raise TypeError).
  { intros k. unfold subscript. destruct data; auto. destruct (items_get k d); eauto. }
  destruct (Hsub "title") as [[t ->] | [-> | ->]];
    [| split; [apply same_but_draws_refl | intros e [= <-]; auto]
     | split; [apply same_but_draws_refl | intros e [= <-]; auto]].
  destruct (Hsub "priority") as [[p ->] | [-> | ->]];
    [| split; [apply same_but_draws_refl | intros e [= <-]; auto]
     | split; [apply same_but_draws_refl | intros e [= <-]; auto]].
  destruct (Hsub "isDone") as [[f ->] | [-> | ->]];
    [| split; [apply same_but_draws_refl | intros e [= <-]; auto]
     | split; [apply same_but_draws_refl | intros e [= <-]; auto]].
  destruct (Hsub "id") as [[i ->] | [-> | ->]];
    [| split; [apply same_but_draws_refl | intros e [= <-]; auto]
     | split; [apply same_but_draws_refl | intros e [= <-]; auto]].
  split; [apply Task_init_world |].
  destruct (Task_init_ok t p f i w) as (task & w' & -> & _). discriminate.
Qed.

(** One turn of the loop of [load_tasks]. *)
Lemma load_step_world (task_data : pyval) (s : State) :
  let out := (task <- in_world (Task.from_dict task_data) ;; TaskManager.store task) s in
  same_but_draws (world s) (world (snd out))
  /\ forall e : exn, fst out = Raise e -> e = KeyError \/ e = TypeError.
Proof.
  cbv zeta. unfold bind, in_world.
  destruct (from_dict_world task_data (world s)) as [Hw He].
  destruct (Task.from_dict task_data (world s)) as [[task | e] w'] eqn:E; simpl in *.
  - unfold TaskManager.store. simpl.
    destruct (hash_key (Task.id task)) as [k | e] eqn:Ek; simpl.
    + split; [exact Hw | discriminate].
    + split; [exact Hw |]. intros e' [= <-].
      destruct (Task.id task); simpl in Ek; try discriminate; injection Ek as <-; auto.
  - split; [exact Hw |]. intros e' [= <-]. exact (proj1 (He e eq_refl)).
Qed.

Lemma for_each_world {A : Type} (body : A -> M State unit) (items : list A) :
  (forall (x : A) (s : State),
     same_but_draws (world s) (world (snd (body x s)))
     /\ forall e : exn, fst (body x s) = Raise e -> e = KeyError \/ e = TypeError) ->
  forall s : State,
    same_but_draws (world s) (world (snd (for_each items body s)))
    /\ forall e : exn, fst (for_each items body s) = Raise e -> e = KeyError \/ e = TypeError.
Proof.
  intros Hbody. induction items as [| x items IH]; intros s; simpl.
  - split; [apply same_but_draws_refl | discriminate].
  - unfold bind. destruct (Hbody x s) as [Hw He].
    destruct (body x s) as [[[] | e] s1]; simpl in *.
    + destruct (IH s1) as [Hw1 He1]. split; [| exact He1].
      eapply same_but_draws_trans; eauto.
    + split; [exact Hw | exact He].
Qed.

(** X7: building the [TaskManager] never writes the persistence file or
    changes it, whatever the file holds, and never lets a [JSONDecodeError]
    or a [KeyError] out: those it answers with an empty store.  Without a
    file it returns with an empty store and the world as it was. *)
Theorem init_reads_only (w : World) :
  file (world (snd (TaskManager.__init__ w))) = file w
  /\ writes (world (snd (TaskManager.__init__ w))) = writes w
  /\ fst (TaskManager.__init__ w) <> Raise JSONDecodeError
  /\ fst (TaskManager.__init__ w) <> Raise KeyError
  /\ (file w = None -> TaskManager.__init__ w = (Ok tt, mkState [] w)).
Proof.
  unfold TaskManager.__init__, TaskManager.load_tasks. simpl world.
  destruct (file w) as [f |] eqn:Ef;
    [| simpl; rewrite Ef; repeat split; discriminate].
  assert (Hnone : Some f = None -> False) by discriminate.
  unfold try_except.
  match goal with |- context [match ?m ?s with _ => _ end] =>
    assert (Hm : same_but_draws w (world (snd (m s))));
    [| destruct (m s) as [[[] | e] s1] ]
  end.
  - destruct f as [| | v | e].
    + erewrite bind_raise by reflexivity. apply same_but_draws_refl.
    + erewrite bind_raise by reflexivity. apply same_but_draws_refl.
    + erewrite bind_ok by reflexivity. cbn beta.
      destruct (iterate v) as [items | e] eqn:Ei.
      * erewrite bind_ok by reflexivity.
        exact (proj1 (for_each_world
                 (fun task_data => task <- in_world (Task.from_dict task_data) ;;
                                   TaskManager.store task)
                 items (fun x s => load_step_world x s) (mkState [] w))).
      * erewrite bind_raise by reflexivity. apply same_but_draws_refl.
    + erewrite bind_raise by reflexivity. apply same_but_draws_refl.
  - simpl in *. destruct Hm as (H1 & H2 & _).
    repeat split; try congruence; try discriminate;
      try (intros H; now apply Hnone in H).
  - simpl in Hm. destruct Hm as (H1 & H2 & H3 & H4).
    destruct e; simpl; repeat split; try congruence; try discriminate;
      try (intros H; now apply Hnone in H).
Qed.

Lemma init_reads_only_witness :
  TaskManager.__init__ world_spread = (Ok tt, mkState [] world_spread).
Proof. exact (proj2 (proj2 (proj2 (proj2 (init_reads_only world_spread)))) eq_refl). Defined.

Lemma for_each_app {S A : Type} (body : A -> M S unit) (l1 l2 : list A) (s s1 : S) :
  for_each l1 body s = (Ok tt, s1) ->
  for_each (l1 ++ l2) body s = for_each l2 body s1.
Proof.
  revert s. induction l1 as [| x l1 IH]; intros s; simpl.
  - now intros [= ->].
  - unfold bind. destruct (body x s) as [[[] | e] s']; [apply IH | discriminate].
Qed.

Lemma load_step_loadable (v : pyval) (s : State) :
  loadable v ->
  exists s' : State,
    (task <- in_world (Task.from_dict v) ;; TaskManager.store task) s = (Ok tt, s')
    /\ same_but_draws (world s) (world s').
Proof.
  intros (d & -> & Hf & Hhash).
  destruct (load_step_world (PDict d) s) as [Hw _]. cbv zeta in Hw.
  destruct (items_get "id" d) as [i |] eqn:Ei; [| now destruct Hf as (_ & _ & _ & Hi)].
  destruct (from_dict_id_cases d i (world s) Hf Ei) as (task & Htrue & Hfalse).
  specialize (Hhash i eq_refl).
  revert Hw. unfold bind, in_world, TaskManager.store.
  destruct (truthy i) eqn:Et.
  - destruct (Htrue eq_refl) as [-> ->]. destruct (Hhash eq_refl) as [k ->].
    simpl. eauto.
  - destruct (Hfalse eq_refl) as [-> ->]. simpl. eauto.
Qed.

Lemma load_loadable (good : list pyval) (s : State) :
  Forall loadable good ->
  exists s' : State,
    for_each good
      (fun task_data => task <- in_world (Task.from_dict task_data) ;;
                        TaskManager.store task) s = (Ok tt, s')
    /\ same_but_draws (world s) (world s').
Proof.
  intros H. revert s. induction H as [| v good Hv _ IH]; intros s; simpl.
  - exists s. split; [reflexivity | apply same_but_draws_refl].
  - destruct (load_step_loadable v s Hv) as (s1 & Hrun & Hw).
    destruct (IH s1) as (s2 & Hrun2 & Hw2).
    exists s2. split; [| eapply same_but_draws_trans; eauto].
    now rewrite (bind_ok _ _ _ _ _ Hrun).
Qed.

(** X8: no partial recovery.  When the file is not JSON, or is a JSON array
    in which task objects that can be loaded are followed by an object
    that lacks one of the four fields, [TaskManager()] returns normally
    with an empty store, whatever was loaded before the faulty object, and
    has printed the one diagnostic line; the file is left as it is. *)
Theorem load_discards_all (w : World) :
  (file w = Some NotJSON
   \/ exists (good rest : list pyval) (d : list (string * pyval)),
        file w = Some (JSONText (PList (good ++ PDict d :: rest)))
        /\ Forall loadable good /\ ~ has_task_fields d) ->
  exists s : State,
    TaskManager.__init__ w = (Ok tt, s)
    /\ tasks s = []
    /\ stdout (world s) = load_error_line :: stdout w
    /\ file (world s) = file w
    /\ writes (world s) = writes w.
Proof.
  intros [Hf | (good & rest & d & Hf & Hgood & Hbad)];
    unfold TaskManager.__init__, TaskManager.load_tasks; simpl world; rewrite Hf.
  - eexists. split; [reflexivity |]. simpl. rewrite Hf. auto.
  - unfold try_except.
    erewrite bind_ok by reflexivity. cbn beta.
    erewrite bind_ok by reflexivity. cbn beta.
    destruct (load_loadable good (mkState [] w) Hgood) as (s1 & Hrun & Hw).
    rewrite (for_each_app _ _ _ _ _ Hrun). simpl for_each.
    assert (Hstep : (task <- in_world (Task.from_dict (PDict d)) ;;
                     TaskManager.store task) s1 = (Raise KeyError, s1)).
    { unfold bind, in_world.
      rewrite (from_dict_key_error d (world s1) Hbad).
      now destruct s1. }
    rewrite (bind_raise _ _ _ _ _ Hstep). simpl.
    destruct Hw as (H1 & H2 & H3 & H4). simpl in *.
    eexists. split; [reflexivity |]. simpl. rewrite H1, H2, H3, Hf. auto.
Qed.

Lemma load_discards_all_witness :
  exists s : State,
    TaskManager.__init__ (world_with (JSONText (PList [
      PDict [("id", PStr "a"); ("title", PStr "t");
             ("priority", PStr "low"); ("isDone", PBool false)];
      PDict [("id", PStr "b"); ("title", PStr "u")]]))) = (Ok tt, s)
    /\ tasks s = [].
Proof.
  destruct (load_discards_all (world_with (JSONText (PList [
      PDict [("id", PStr "a"); ("title", PStr "t");
             ("priority", PStr "low"); ("isDone", PBool false)];
      PDict [("id", PStr "b"); ("title", PStr "u")]])))) as (s & Hrun & Ht & _).
  - right.
    exists [PDict [("id", PStr "a"); ("title", PStr "t");
                   ("priority", PStr "low"); ("isDone", PBool false)]],
           [], [("id", PStr "b"); ("title", PStr "u")].
    split; [reflexivity |]. split.
    + constructor; [| constructor]. eexists. split; [reflexivity |]. split.
      * repeat split; discriminate.
      * intros i [= <-] _. eexists. reflexivity.
    + intros (_ & Hp & _). now apply Hp.
  - exists s. split; assumption.
Defined.

(** ** More on load_tasks and _read_json_body *)

Lemma load_entries_fold (entries acc : list (hkey * Task.t)) (w : World) :
  Forall entry_ok entries ->
  for_each (map Task.to_dict (dict_values entries))
    (fun task_data =>
       task <- in_world (Task.from_dict task_data) ;; TaskManager.store task)
    (mkState acc w)
  = (Ok tt, mkState (fold_left (fun d kt => dict_set (fst kt) (snd kt) d) entries acc) w).
Proof.
  revert acc. induction entries as [| [k task] entries IH]; intros acc Hall; simpl.
  - reflexivity.
  - inversion Hall as [| ? ? (Hk & Hid & Hprio) Hall']; subst. simpl in Hk, Hid, Hprio.
    unfold bind at 1. unfold bind at 1. unfold in_world. simpl world.
    rewrite (from_dict_to_dict task w Hid Hprio). simpl.
    unfold TaskManager.store. rewrite Hk. simpl.
    now apply IH.
Qed.

Lemma dict_get_fold {V : Type} (entries acc : list (hkey * V)) (k : hkey) :
  dict_get k (fold_left (fun d kt => dict_set (fst kt) (snd kt) d) entries acc)
  = match find (fun kt => hkey_eqb (fst kt) k) (List.rev entries) with
    | Some kt => Some (snd kt)
    | None => dict_get k acc
    end.
Proof.
  induction entries as [| [k' v] entries IH] using rev_ind; [reflexivity |].
  rewrite fold_left_app, List.rev_app_distr. simpl.
  destruct (hkey_eqb_spec k' k) as [-> | Hne].
  - apply dict_get_set_same.
  - rewrite dict_get_set_other by congruence. exact IH.
Qed.

(** X9: duplicate ids in the file.  When the file is the JSON array of the
    dumps of tasks, each with a true, hashable id and a valid priority, but
    not necessarily with distinct ids, [TaskManager()] returns normally and
    prints nothing, and each key then holds the last task of the array
    that has that id: a later object silently replaces an earlier one. *)
Theorem load_last_wins (entries : list (hkey * Task.t)) (w : World) :
  Forall entry_ok entries ->
  file w = Some (JSONText (PList (map Task.to_dict (dict_values entries)))) ->
  exists s : State,
    TaskManager.__init__ w = (Ok tt, s)
    /\ world s = w
    /\ forall k : hkey,
         dict_get k (tasks s)
         = option_map snd (find (fun kt => hkey_eqb (fst kt) k) (List.rev entries)).
Proof.
  intros Hall Hfile. unfold TaskManager.__init__, TaskManager.load_tasks.
  simpl world. rewrite Hfile.
  exists (mkState (fold_left (fun d kt => dict_set (fst kt) (snd kt) d) entries []) w).
  split; [| split; [reflexivity |]].
  - apply try_except_ok.
    erewrite bind_ok by reflexivity.
    erewrite bind_ok by reflexivity.
    exact (load_entries_fold entries [] w Hall).
  - intros k. simpl tasks. rewrite dict_get_fold.
    destruct (find _ (List.rev entries)); reflexivity.
Qed.

Lemma load_last_wins_witness :
  exists s : State,
    TaskManager.__init__
      (world_with (JSONText (PList (map Task.to_dict
         [Task.mk (PStr "a") (PStr "first") (PStr "low") (PBool false);
          Task.mk (PStr "a") (PStr "second") (PStr "high") (PBool true)]))))
    = (Ok tt, s)
    /\ dict_get (KStr "a") (tasks s)
       = Some (Task.mk (PStr "a") (PStr "second") (PStr "high") (PBool true)).
Proof.
  destruct (load_last_wins
              [(KStr "a", Task.mk (PStr "a") (PStr "first") (PStr "low") (PBool false));
               (KStr "a", Task.mk (PStr "a") (PStr "second") (PStr "high") (PBool true))]
              (world_with (JSONText (PList (map Task.to_dict
                 [Task.mk (PStr "a") (PStr "first") (PStr "low") (PBool false);
                  Task.mk (PStr "a") (PStr "second") (PStr "high") (PBool true)])))))
    as (s & Hrun & _ & Hget).
  - repeat constructor.
  - reflexivity.
  - exists s. split; [exact Hrun |]. now rewrite Hget.
Defined.

Lemma from_dict_errors_witness :
  Task.from_dict (PDict [("id", PStr "b"); ("title", PStr "u")]) world_spread
  = (Raise KeyError, world_spread)
  /\ Task.from_dict (PInt 1) world_spread = (Raise TypeError, world_spread).
Proof.
  destruct (from_dict_errors (PDict [("id", PStr "b"); ("title", PStr "u")]) world_spread)
    as (_ & Hkey & _).
  destruct (from_dict_errors (PInt 1) world_spread) as (_ & _ & Htype).
  split.
  - apply (Hkey _ eq_refl). intros (_ & Hp & _). now apply Hp.
  - apply Htype. discriminate.
Defined.

Lemma from_dict_id_witness :
  exists (task : Task.t) (fresh : string),
    Task.from_dict
      (PDict [("id", PStr ""); ("title", PStr "t"); ("priority", PStr "low");
              ("isDone", PBool false)]) world_spread
    = (Ok task, drew world_spread)
    /\ Task.id task = PStr fresh
    /\ String.length fresh = 8%nat.
Proof.
  destruct (from_dict_id
              [("id", PStr ""); ("title", PStr "t"); ("priority", PStr "low");
               ("isDone", PBool false)] (PStr "") world_spread)
    as (task & _ & Hfalse).
  - repeat split; discriminate.
  - reflexivity.
  - destruct (Hfalse eq_refl) as (fresh & H). exists task, fresh. exact H.
Defined.


(** ** add_task and do_POST *)


(** X14: no request deletes a task.  After any POST request, answered or
    not, the keys of the store are the keys before it, in the same order,
    followed by at most one new key. *)
Theorem post_never_deletes (req : Request) (s : State) :
  exists extra : list hkey,
    dict_keys (tasks (snd (TaskHandler.do_POST req s))) = dict_keys (tasks s) ++ extra
    /\ (List.length extra <= 1)%nat.
Proof.
  destruct (do_POST_effect req s) as [-> | [(t & p & ->) | (i & ->)]].
  - exists []. rewrite List.app_nil_r. split; [reflexivity | simpl; lia].
  - rewrite add_task_eq. cbv zeta. cbn [snd tasks].
    destruct (dict_keys_set (tasks s) (KStr (next_id (world s)))
                (new_task t p (world s))) as [-> | [_ ->]].
    + exists []. rewrite List.app_nil_r. split; [reflexivity | simpl; lia].
    + eexists. split; [reflexivity | simpl; lia].
  - destruct (dict_get (KStr i) (tasks s)) as [task |] eqn:Hget.
    + rewrite (mark_as_done_found _ _ _ Hget). cbv zeta. cbn [snd tasks].
      rewrite (dict_keys_set_old _ _ _ _ Hget).
      exists []. rewrite List.app_nil_r. split; [reflexivity | simpl; lia].
    + rewrite (mark_as_done_missing _ _ Hget). cbn [snd].
      exists []. rewrite List.app_nil_r. split; [reflexivity | simpl; lia].
Qed.

(** X24: done stays done.  A task that is done (isDone is [True]) is still
    held, unchanged, under its key after any POST request, unless the
    request created a task whose generated id is that very key, which then
    holds the new, not done, task. *)
Theorem done_stays_done (req : Request) (s : State) (k : hkey) (task : Task.t) :
  dict_get k (tasks s) = Some task ->
  Task.is_done task = PBool true ->
  dict_get k (tasks (snd (TaskHandler.do_POST req s))) = Some task
  \/ (k = KStr (next_id (world s))
      /\ exists new : Task.t,
           dict_get k (tasks (snd (TaskHandler.do_POST req s))) = Some new
           /\ Task.is_done new = PBool false).
Proof.
  intros Hget Hdone.
  destruct (do_POST_effect req s) as [-> | [(t & p & ->) | (i & ->)]]; [now left | |].
  - rewrite add_task_eq. cbv zeta. cbn [snd tasks].
    destruct (hkey_eqb_spec k (KStr (next_id (world s)))) as [-> | Hne].
    + right. split; [reflexivity |]. eexists. split; [apply dict_get_set_same | reflexivity].
    + left. now rewrite dict_get_set_other.
  - left. destruct (dict_get (KStr i) (tasks s)) as [other |] eqn:Hi.
    + rewrite (mark_as_done_found _ _ _ Hi). cbv zeta. cbn [snd tasks].
      destruct (hkey_eqb_spec k (KStr i)) as [-> | Hne].
      * rewrite dict_get_set_same. rewrite Hi in Hget. injection Hget as ->.
        destruct task. simpl in *. now rewrite Hdone.
      * now rewrite dict_get_set_other.
    + now rewrite (mark_as_done_missing _ _ Hi).
Qed.

Lemma done_stays_done_witness :
  exists (s1 : State) (task : Task.t),
    TaskManager.mark_as_done "30224067" state_milk = (Ok true, s1)
    /\ dict_get (KStr "30224067") (tasks s1) = Some task
    /\ Task.is_done task = PBool true
    /\ dict_get (KStr "30224067") (tasks (snd (TaskHandler.do_POST req_form_walk s1)))
       = Some task.
Proof.
  assert (Hrun : TaskManager.mark_as_done "30224067" state_milk
                 = (Ok true, snd (TaskManager.mark_as_done "30224067" state_milk)))
    by now vm_compute.
  set (s1 := snd (TaskManager.mark_as_done "30224067" state_milk)) in *.
  set (task := Task.mk (PStr "30224067") (PStr "Buy milk") (PStr "high") (PBool true)).
  assert (Hget : dict_get (KStr "30224067") (tasks s1) = Some task) by now vm_compute.
  exists s1, task. split; [exact Hrun |]. split; [exact Hget |]. split; [reflexivity |].
  destruct (done_stays_done req_form_walk s1 (KStr "30224067") task Hget eq_refl)
    as [H | [Hk _]]; [exact H |].
  exfalso. vm_compute in Hk. discriminate Hk.
Defined.






(** ** JSON bodies that are not objects *)







(** ** Paths *)

Lemma split_nonempty (c : ascii) (s : string) : split c s <> [].
Proof.
  destruct s as [| a s]; simpl; [discriminate |].
  destruct (Ascii.eqb a c); [discriminate |].
  destruct (split c s); discriminate.
Qed.

Lemma join_cons (c a : ascii) (h : string) (t : list string) :
  join c (String a h :: t) = String a (join c (h :: t)).
Proof. destruct t; reflexivity. Qed.

Lemma join_split (c : ascii) (s : string) : join c (split c s) = s.
Proof.
  induction s as [| a s IH]; simpl; [reflexivity |].
  destruct (Ascii.eqb_spec a c) as [-> | Hne].
  - pose proof (split_nonempty c s) as Hs.
    destruct (split c s) as [| h t]; [contradiction |].
    change (join c (EmptyString :: h :: t)) with (String c (join c (h :: t))).
    now rewrite IH.
  - pose proof (split_nonempty c s) as Hs.
    destruct (split c s) as [| h t]; [contradiction |].
    rewrite join_cons. now rewrite IH.
Qed.

Lemma split_no_sep (c : ascii) (s : string) :
  Forall (fun p => ~ In c (list_ascii_of_string p)) (split c s).
Proof.
  induction s as [| a s IH]; simpl.
  - constructor; [intros [] | constructor].
  - destruct (Ascii.eqb_spec a c) as [-> | Hne].
    + constructor; [intros [] | exact IH].
    + destruct (split c s) as [| h t].
      * constructor; [| constructor]. simpl. intros [E | []]. congruence.
      * inversion IH as [| ? ? Hh Ht]; subst. constructor; [| exact Ht].
        simpl. intros [E | Hin]; [congruence | contradiction].
Qed.

(** X17: the parts of a path.  [_parse_path] raises what [urlparse]
    raises; when [urlparse] returns, [_parse_path] never returns an empty
    list (so the test [len(path_parts) == 0] of [do_GET] never holds), no
    part contains a slash, and joining the parts with slashes gives back
    the path without its leading and trailing slashes. *)
Theorem parse_path_parts (req : Request) :
  match url_path req with
  | Ok path =>
      exists parts : list string,
        TaskHandler._parse_path req = Ok parts
        /\ parts <> []
        /\ Forall (fun p => ~ In "/"%char (list_ascii_of_string p)) parts
        /\ join "/" parts = strip "/" path
  | Raise e => TaskHandler._parse_path req = Raise e
  end.
Proof.
  unfold TaskHandler._parse_path.
  destruct (url_path req) as [path | e]; [| reflexivity].
  eexists. split; [reflexivity |].
  split; [apply split_nonempty |]. split; [apply split_no_sep | apply join_split].
Qed.

Lemma rstrip_snoc (c : ascii) (s : string) :
  rstrip c (s ++ String c EmptyString)%string = rstrip c s.
Proof.
  induction s as [| a s IH]; simpl.
  - now rewrite Ascii.eqb_refl.
  - now rewrite IH.
Qed.

Lemma lstrip_snoc (c : ascii) (s : string) :
  lstrip c (s ++ String c EmptyString)%string
  = match lstrip c s with
    | EmptyString => EmptyString
    | r => (r ++ String c EmptyString)%string
    end.
Proof.
  induction s as [| a s IH]; simpl.
  - now rewrite Ascii.eqb_refl.
  - destruct (Ascii.eqb a c); [exact IH | reflexivity].
Qed.

Lemma strip_slashes (c : ascii) (s : string) :
  strip c (String c s) = strip c s
  /\ strip c (s ++ String c EmptyString)%string = strip c s.
Proof.
  unfold strip. split.
  - simpl. now rewrite Ascii.eqb_refl.
  - rewrite lstrip_snoc. destruct (lstrip c s) as [| a r] eqn:E; [reflexivity |].
    apply rstrip_snoc.
Qed.

Lemma do_POST_ext (r1 r2 : Request) (s : State) :
  TaskHandler._parse_path r1 = TaskHandler._parse_path r2 ->
  content_type r1 = content_type r2 ->
  content_length r1 = content_length r2 ->
  body r1 = body r2 ->
  log_line r1 = log_line r2 ->
  TaskHandler.do_POST r1 s = TaskHandler.do_POST r2 s.
Proof.
  intros Hp Hc Hl Hb Hg.
  unfold TaskHandler.do_POST, TaskHandler.is_json, TaskHandler._read_json_body,
    TaskHandler.int_content_length, TaskHandler.read_decoded,
    TaskHandler.redirect_home, TaskHandler._send_json_response,
    TaskHandler._send_empty_response, TaskHandler.log_message.
  now rewrite Hp, Hc, Hl, Hb, Hg.
Qed.

(** X18: slashes around a path do not matter.  A request whose path has
    one more leading or trailing slash is split into the same parts, and
    [do_POST] serves it exactly as the request without that slash (the
    path is the one [urlparse] returns, the log line being the same). *)
Theorem path_slashes_ignored (p : string) (ct : option string) (cl : option Z)
  (b : option Text) (line : string) (s : State) :
  TaskHandler._parse_path (mkRequest (Ok (String "/" p)) ct cl b line)
  = TaskHandler._parse_path (mkRequest (Ok p) ct cl b line)
  /\ TaskHandler._parse_path (mkRequest (Ok (p ++ "/")%string) ct cl b line)
     = TaskHandler._parse_path (mkRequest (Ok p) ct cl b line)
  /\ TaskHandler.do_POST (mkRequest (Ok (String "/" p)) ct cl b line) s
     = TaskHandler.do_POST (mkRequest (Ok p) ct cl b line) s
  /\ TaskHandler.do_POST (mkRequest (Ok (p ++ "/")%string) ct cl b line) s
     = TaskHandler.do_POST (mkRequest (Ok p) ct cl b line) s.
Proof.
  destruct (strip_slashes "/" p) as [H1 H2].
  assert (P1 : TaskHandler._parse_path (mkRequest (Ok (String "/" p)) ct cl b line)
               = TaskHandler._parse_path (mkRequest (Ok p) ct cl b line))
    by (unfold TaskHandler._parse_path; cbn [url_path]; now rewrite H1).
  assert (P2 : TaskHandler._parse_path (mkRequest (Ok (p ++ "/")%string) ct cl b line)
               = TaskHandler._parse_path (mkRequest (Ok p) ct cl b line))
    by (unfold TaskHandler._parse_path; cbn [url_path]; now rewrite H2).
  split; [exact P1 |]. split; [exact P2 |].
  split; apply do_POST_ext; auto.
Qed.

(** ** What a request leaves behind *)

Lemma persist_outcome {A : Type} (d : list (hkey * Task.t)) (w : World) (a : A) :
  (store_dumpable d = true /\ persist_result d a = Ok a /\ persisted d w = saved d w)
  \/ (store_dumpable d = false /\ persist_result d a = Raise UnicodeEncodeError
      /\ persisted d w = cut_short w).
Proof.
  unfold persist_result, persisted. destruct (store_dumpable d); [left | right]; auto.
Qed.

Lemma create_from_json_outcome (req : Request) (data : pyval) (s : State) :
  post_outcome req s (fst (create_from_json req data s)) (snd (create_from_json req data s)).
Proof.
  unfold create_from_json, bind, lift_result, ret.
  assert (H400 : post_outcome req s (Ok (mkResponse 400 [] None)) (logged req s)).
  { right. left. split; [reflexivity |]. eexists. split; [reflexivity |].
    right. simpl. auto. }
  destruct (negb (truthy data)); cbn beta iota zeta; [exact H400 |].
  destruct (contains data "title") as [[] | e]; cbn [negb]; cbn beta iota zeta;
    [| exact H400 | left; split; [reflexivity | now exists e]].
  destruct (get_default data "priority" (PStr "normal")) as [p | e]; cbn beta iota zeta;
    [| left; split; [reflexivity | now exists e]].
  destruct (subscript data "title") as [t | e]; cbn beta iota zeta;
    [| left; split; [reflexivity | now exists e]].
  rewrite add_task_eq. cbv zeta.
  set (task := new_task t p (world s)).
  set (d := dict_set (KStr (next_id (world s))) task (tasks s)).
  destruct (persist_outcome d (drew (world s)) task) as [(Hd & -> & ->) | (Hd & -> & ->)];
    cbn beta iota zeta.
  - rewrite send_json_eq.
    rewrite (store_dumpable_in d (KStr (next_id (world s))) task Hd
               (dict_get_in _ _ _ (dict_get_set_same _ _ _))).
    right. right. left. cbn [fst snd logged tasks world saved file writes drew in_sync].
    unfold in_sync. cbn [tasks world file].
    repeat split; try assumption. eexists. split; [reflexivity |]. simpl. auto.
  - right. right. right. cbn [fst snd tasks world cut_short file writes drew]. auto.
Qed.

Lemma do_POST_outcome (req : Request) (s : State) :
  post_outcome req s (fst (TaskHandler.do_POST req s)) (snd (TaskHandler.do_POST req s)).
Proof.
  assert (H404 : post_outcome req s (Ok (mkResponse 404 [] None)) (logged req s)).
  { right. left. split; [reflexivity |]. eexists. split; [reflexivity |].
    right. simpl. auto. }
  assert (H303 : post_outcome req s (Ok (mkResponse 303 [("Location", "/")] None))
                   (logged req s)).
  { right. left. split; [reflexivity |]. eexists. split; [reflexivity |]. now left. }
  assert (Hraise : forall e : exn, post_outcome req s (Raise e) s).
  { intros e. left. split; [reflexivity | now exists e]. }
  unfold TaskHandler.do_POST.
  destruct (TaskHandler._parse_path req) as [parts | e]; [| apply Hraise].
  erewrite bind_ok by reflexivity.
  destruct (_ && _).
  - destruct (TaskHandler.is_json req).
    + destruct (read_json_body_pure req s) as [[data | e] Hr].
      * rewrite (bind_ok _ _ _ _ _ Hr). apply create_from_json_outcome.
      * rewrite (bind_raise _ _ _ _ _ Hr). apply Hraise.
    + unfold TaskHandler.int_content_length, TaskHandler.read_decoded, bind, ret, raise.
      destruct (content_length req) as [n |]; cbn beta iota zeta; [| apply Hraise].
      destruct (n >? 0); cbn beta iota zeta; [| exact H303].
      destruct (body req) as [text |]; cbn beta iota zeta; [| apply Hraise].
      destruct (negb _); cbn beta iota zeta; [| exact H303].
      rewrite add_task_eq. cbv zeta.
      match goal with
      | |- context [persist_result ?d ?t] =>
          destruct (persist_outcome d (drew (world s)) t) as [(Hd & -> & ->) | (Hd & -> & ->)]
      end; cbn beta iota zeta.
      * right. right. left. unfold in_sync.
        cbn [fst snd TaskHandler.redirect_home logged tasks world saved file writes drew].
        repeat split; try assumption. eexists. split; [reflexivity |]. simpl. auto.
      * right. right. right. cbn [fst snd tasks world cut_short file writes drew]. auto.
  - destruct (_ && _); [| exact H404].
    unfold bind.
    destruct (dict_get (KStr (nth 1 parts "")) (tasks s))
      as [task |] eqn:Hget.
    + rewrite (mark_as_done_found _ _ _ Hget). cbv zeta.
      match goal with
      | |- context [persist_result ?d true] =>
          destruct (persist_outcome d (world s) true) as [(Hd & -> & ->) | (Hd & -> & ->)]
      end; cbn beta iota zeta.
      * right. right. left. unfold in_sync.
        destruct (TaskHandler.is_json req);
          cbn [fst snd TaskHandler.redirect_home TaskHandler._send_empty_response
               logged tasks world saved file writes];
          (repeat split; try assumption; eexists; split; [reflexivity |]; simpl; auto).
      * right. right. right. cbn [fst snd tasks world cut_short file writes]. auto.
    + rewrite (mark_as_done_missing _ _ Hget). exact H404.
Qed.



(** X11: what a request changed survives a restart.  After a POST request
    that was answered and changed the store of a reachable state, a fresh
    [TaskManager()] in any world holding the persistence file of that
    moment returns normally with exactly the tasks that were in memory. *)
Theorem post_survives_restart (req : Request) (s s' : State) (resp : Response)
  (fresh : World) :
  reachable s ->
  TaskHandler.do_POST req s = (Ok resp, s') ->
  tasks s' <> tasks s ->
  file fresh = file (world s') ->
  TaskManager.__init__ fresh = (Ok tt, mkState (tasks s') fresh).
Proof.
  intros Hreach Hrun Hne Hfile.
  pose proof (reachable_store_ok _ (reach_post s req Hreach)) as Hok.
  pose proof (do_POST_outcome req s) as Hout.
  rewrite Hrun in Hok, Hout. cbn [fst snd] in Hok, Hout.
  destruct Hout as [[_ (e & He)] | [[-> _] | [(Hs & _) | (Hr & _)]]].
  - discriminate He.
  - now contradiction Hne.
  - apply init_from_dump; [exact Hok |]. now rewrite Hfile.
  - discriminate Hr.
Qed.

(** X13: a refused request changes nothing.  When [do_POST] answers 400
    or 404, the answer has no header of its own and no body, and the state
    is the one before the request but for the log line on the standard
    output; when [do_POST] raises without having written the file, the
    state is exactly the one before the request. *)
Theorem refused_post_changes_nothing (req : Request) (s s' : State) :
  (forall resp : Response,
     TaskHandler.do_POST req s = (Ok resp, s') ->
     status resp = 400 \/ status resp = 404 ->
     s' = logged req s /\ headers resp = [] /\ payload resp = None)
  /\ (forall e : exn,
        TaskHandler.do_POST req s = (Raise e, s') ->
        writes (world s') = writes (world s) -> s' = s).
Proof.
  pose proof (do_POST_outcome req s) as Hout. split.
  - intros resp Hrun Hcode. rewrite Hrun in Hout. cbn [fst snd] in Hout.
    destruct Hout as [[_ (e & He)] | [[-> (r & Hr & Hk)]
                     | [(_ & _ & _ & r & Hr & Hk) | (Hr & _)]]];
      try discriminate.
    + injection Hr as <-. destruct Hk as [Hk | (Hh & Hp & _)]; [| auto].
      destruct Hcode as [Hc | Hc]; rewrite Hc in Hk; discriminate.
    + injection Hr as <-.
      destruct Hcode as [Hc | Hc]; rewrite Hc in Hk;
        destruct Hk as [Hk | [Hk | Hk]]; discriminate.
  - intros e Hrun Hw. rewrite Hrun in Hout. cbn [fst snd] in Hout.
    destruct Hout as [[-> _] | [[_ (r & Hr & _)]
                     | [(_ & _ & _ & r & Hr & _) | (_ & _ & _ & Hw')]]];
      try discriminate; [reflexivity |].
    rewrite Hw in Hw'. exfalso. now apply (n_Sn (writes (world s))).
Qed.

Lemma post_survives_restart_witness :
  reachable state_spread
  /\ tasks (snd (TaskHandler.do_POST req_high state_spread)) <> tasks state_spread
  /\ TaskManager.__init__ (world (snd (TaskHandler.do_POST req_high state_spread)))
     = (Ok tt, mkState (tasks (snd (TaskHandler.do_POST req_high state_spread)))
                 (world (snd (TaskHandler.do_POST req_high state_spread)))).
Proof.
  assert (Hr : reachable state_spread) by exact (reach_start _ _ state_spread_start).
  assert (Hne : tasks (snd (TaskHandler.do_POST req_high state_spread))
                <> tasks state_spread).
  { intros H. apply (f_equal (@List.length _)) in H. vm_compute in H. discriminate H. }
  split; [exact Hr |]. split; [exact Hne |].
  exact (post_survives_restart req_high state_spread
           (snd (TaskHandler.do_POST req_high state_spread))
           (mkResponse 201 [("Content-Type", "application/json; charset=utf-8")]
              (Some (Task.to_dict (new_task (PStr "Buy milk") (PStr "high")
                                     (world state_spread)))))
           _ Hr eq_refl Hne eq_refl).
Defined.

Lemma refused_post_changes_nothing_witness :
  snd (TaskHandler.do_POST (req_complete "application/json" "missing") state_milk)
  = logged (req_complete "application/json" "missing") state_milk
  /\ headers (mkResponse 404 [] None) = []
  /\ payload (mkResponse 404 [] None) = None.
Proof.
  exact (proj1 (refused_post_changes_nothing
                  (req_complete "application/json" "missing") state_milk
                  (snd (TaskHandler.do_POST (req_complete "application/json" "missing")
                          state_milk)))
           (mkResponse 404 [] None) eq_refl (or_intror eq_refl)).
Defined.




